(** * Loukai Creator: the Python batch runners

    A shallow embedding of the three single-shot jobs under
    [src/main/creator/python]:

    - [crepe_runner.py]   (pitch contour),
    - [demucs_runner.py]  (stem separation),
    - [whisper_runner.py] (lyric transcription),

    together with the properties their specification states about them.

    Conventions of the embedding.

    - Numbers.  Python and numpy floats are modelled by exact rationals
      ([Q]); binary round-off is not modelled.  Python's [round(x, n)] is
      round-half-to-even on the decimal scaled value, which is what CPython
      computes on the exact value of its argument.  numpy's [0/0] is the
      one place where a NaN can arise from finite data; it is modelled by
      [None].
    - Effects.  Each runner is a computation in a small state-and-exception
      monad over a [world] that holds the two output streams, the current
      binding of [sys.stdout] and the trace of calls made to external
      libraries.
    - External libraries (torch, torchcrepe, demucs, whisper, soundfile,
      [json.loads], the file system, the clock, [np.log2]) are not part of
      the repository.  Their behaviour is an [env] record of outcomes, each
      of which may be an exception; every theorem quantifies over it. *)

From Stdlib Require Import ZArith QArith Qround Lqa Lia List Ascii String Sorted.
From stdpp Require Import gmap strings list.

Set Default Proof Using "Type".

(** * Fragments of the Python runtime *)

Module Py.

#[local] Open Scope Q_scope.

(** Exceptions that derive from [Exception].  [LibraryError] stands for
    whatever an external library call raises. *)
Inductive exn : Type :=
| ZeroDivisionError
| TypeError
| ValueError
| IndexError
| AttributeError
| LibraryError (msg : string).

(** [str(e)] *)
Definition str (e : exn) : string :=
  match e with
  | ZeroDivisionError => "float division by zero"
  | TypeError => "unsupported operand type(s)"
  | ValueError => "operands could not be broadcast together"
  | IndexError => "boolean index did not match indexed array"
  | AttributeError => "object has no attribute 'get'"
  | LibraryError msg => msg
  end.

(** The outcome of evaluating an expression that may raise. *)
Inductive res (A : Type) : Type :=
| Ok (a : A)
| Exn (e : exn).
Arguments Ok {A} a.
Arguments Exn {A} e.

Definition Qltb (x y : Q) : bool := negb (Qle_bool y x).

(** ** [round]

    [round_half_even x] is the integer nearest to [x], ties going to the
    even neighbour. *)
Definition round_half_even (x : Q) : Z :=
  let f := Qfloor x in
  match Qcompare (x - inject_Z f) (1 # 2) with
  | Lt => f
  | Gt => (f + 1)%Z
  | Eq => if Z.even f then f else (f + 1)%Z
  end.

Definition pow10 (ndigits : nat) : positive := Z.to_pos (10 ^ Z.of_nat ndigits).

(** [round(x, ndigits)] *)
Definition round (x : Q) (ndigits : nat) : Q :=
  round_half_even (x * inject_Z (Zpos (pow10 ndigits))) # pow10 ndigits.

(** Float division [a / b], which raises on a zero divisor. *)
Definition truediv (a b : Q) : res Q :=
  if Qeq_bool b 0 then Exn ZeroDivisionError else Ok (a / b).

(** ** Extended slices [a[::step]] *)
Fixpoint slice_from {A : Type} (step skip : nat) (a : list A) : list A :=
  match a with
  | [] => []
  | x :: a' =>
      match skip with
      | O => x :: slice_from step (step - 1) a'
      | S skip' => slice_from step skip' a'
      end
  end.

Definition slice_step {A : Type} (step : nat) (a : list A) : list A :=
  slice_from step 0 a.

(** ** [str.split()] and [str.strip()] with no argument

    The whitespace characters of the ASCII range. *)
Definition isspace (c : ascii) : bool :=
  let n := nat_of_ascii c in
  ((9 <=? n) && (n <=? 13) || (28 <=? n) && (n <=? 32))%nat.

(** [split_acc cur s] scans [s] with the word in progress [cur] (held in
    reverse). *)
Fixpoint split_acc (cur : list ascii) (s : list ascii) : list (list ascii) :=
  match s with
  | [] => match cur with [] => [] | _ => [rev cur] end
  | c :: s' =>
      if isspace c
      then match cur with
           | [] => split_acc [] s'
           | _ => rev cur :: split_acc [] s'
           end
      else split_acc (c :: cur) s'
  end.

Definition split (s : string) : list string :=
  map string_of_list_ascii (split_acc [] (list_ascii_of_string s)).

Fixpoint lstrip (s : list ascii) : list ascii :=
  match s with
  | c :: s' => if isspace c then lstrip s' else s
  | [] => []
  end.

Definition strip (s : string) : string :=
  string_of_list_ascii
    (rev (lstrip (rev (lstrip (list_ascii_of_string s))))).

End Py.

(** * The process: output streams, exceptions, exit status *)

Module Proc.
Import Py.

Inductive stream : Type := Stdout | Stderr.

Section World.
(** [R] is the runner's success object, [C] the calls it makes to
    external libraries. *)
Context {R C : Type}.

(** The two JSON objects a runner prints: the success object, and
    [{"error": ..., "traceback": ...}]. *)
Inductive payload : Type :=
| Success (r : R)
| Failure (error : string) (traceback : option exn).

Inductive line : Type :=
| Json (p : payload)
| Progress (percent : Z) (message : string)
| Text (s : string).

Record world : Type := World {
  stdout : list line;
  stderr : list line;
  sys_stdout : stream;   (* what the name [sys.stdout] is bound to *)
  calls : list (C * bool)   (* each call, and whether it returned *)
}.

Definition boot : world :=
  {| stdout := []; stderr := []; sys_stdout := Stdout; calls := [] |}.

(** [SysExit] is [SystemExit], which [except Exception] does not catch. *)
Inductive outcome (A : Type) : Type :=
| Return (a : A)
| Raise (e : exn)
| SysExit (code : Z).

Definition M (A : Type) : Type := world -> outcome A * world.

Definition ret {A} (a : A) : M A := fun w => (Return A a, w).

Definition bind {A B} (m : M A) (k : A -> M B) : M B :=
  fun w =>
    match m w with
    | (Return _ a, w') => k a w'
    | (Raise _ e, w') => (Raise B e, w')
    | (SysExit _ c, w') => (SysExit B c, w')
    end.

Definition raise {A} (e : exn) : M A := fun w => (Raise A e, w).

Definition sys_exit {A} (code : Z) : M A := fun w => (SysExit A code, w).

Definition lift {A} (r : res A) : M A :=
  match r with Ok a => ret a | Exn e => raise e end.

Definition write (s : stream) (l : line) : M unit :=
  fun w =>
    (Return unit tt,
     match s with
     | Stdout => World (stdout w ++ [l]) (stderr w) (sys_stdout w) (calls w)
     | Stderr => World (stdout w) (stderr w ++ [l]) (sys_stdout w) (calls w)
     end).

(** [print(x)] writes to whatever [sys.stdout] currently names. *)
Definition print (l : line) : M unit :=
  fun w => write (sys_stdout w) l w.

(** [print(x, file=sys.stderr)] *)
Definition eprint (l : line) : M unit := write Stderr l.

Definition get_sys_stdout : M stream := fun w => (Return stream (sys_stdout w), w).

Definition set_sys_stdout (s : stream) : M unit :=
  fun w => (Return unit tt, World (stdout w) (stderr w) s (calls w)).

Definition returned {A} (r : res A) : bool :=
  match r with Ok _ => true | Exn _ => false end.

(** A call into an external library: it is recorded, and its outcome is
    the one the environment gives. *)
Definition call {A} (c : C) (r : res A) : M A :=
  fun w =>
    lift r (World (stdout w) (stderr w) (sys_stdout w) (calls w ++ [(c, returned r)])).

(** [try: body  except Exception as e: handler(e)] *)
Definition try_except {A} (body : M A) (handler : exn -> M A) : M A :=
  fun w =>
    match body w with
    | (Raise _ e, w') => handler e w'
    | r => r
    end.

(** What the parent process observes when the interpreter is done. An
    uncaught exception prints its traceback on the real standard error
    and exits with status 1. *)
Record exited : Type := Exited {
  status : Z;
  final : world
}.

Definition run (m : M unit) : exited :=
  match m boot with
  | (Return _ _, w) => Exited 0 w
  | (SysExit _ c, w) => Exited c w
  | (Raise _ e, w) =>
      Exited 1 (World (stdout w) (stderr w ++ [Text (str e)]) (sys_stdout w) (calls w))
  end.

(** The JSON objects among the lines of a stream. *)
Definition payloads (ls : list line) : list payload :=
  omap (fun l => match l with Json p => Some p | _ => None end) ls.

(** The contract of the result channel: one payload on standard output,
    and an exit status that says which kind it is. *)
Definition terminal_ok (x : exited) : Prop :=
  match payloads (stdout (final x)) with
  | [Success _] => status x = 0%Z
  | [Failure _ _] => status x <> 0%Z
  | _ => False
  end.

End World.

Arguments payload : clear implicits.
Arguments line : clear implicits.
Arguments world : clear implicits.
Arguments M : clear implicits.
Arguments exited : clear implicits.
Arguments Return {A} a.
Arguments Raise {A} e.
Arguments SysExit {A} code.

Declare Scope proc_scope.
Delimit Scope proc_scope with proc.
Notation "x <- m ;; k" := (bind m (fun x => k))
  (at level 100, m at next level, right associativity) : proc_scope.
Notation "m ;; k" := (bind m (fun _ => k))
  (at level 100, right associativity) : proc_scope.

(** [PROGRESS:percent:message] on standard error. *)
Definition progress {R C} (percent : Z) (message : string) : M R C unit :=
  eprint (Progress percent message).

End Proc.

(** * The request: [json.loads(sys.argv[1])] *)

Module Json.
Import Py.

(** The JSON values the runners' options take. *)
Inductive jval : Type :=
| JNull
| JBool (b : bool)
| JInt (z : Z)
| JStr (s : string).

(** What [json.loads] returns: an object, or some other JSON value. *)
Inductive json : Type :=
| JObject (fields : gmap string jval)
| JOther (v : jval).

(** [sys.argv[1]] as [json.loads] sees it. *)
Inductive argument : Type :=
| Malformed (why : string)   (* json.JSONDecodeError *)
| Parsed (v : json).

(** Python truthiness, as [if not x] tests it; [None] is [JNull]. *)
Definition truthy (v : jval) : bool :=
  match v with
  | JNull => false
  | JBool b => b
  | JInt z => negb (z =? 0)%Z
  | JStr s => negb (String.eqb s "")
  end.

(** [args.get(key, default)]; only a [dict] has the method. *)
Definition get_default (args : json) (key : string) (dflt : jval) : res jval :=
  match args with
  | JObject fields => Ok (default dflt (fields !! key))
  | JOther _ => Exn AttributeError
  end.

(** [args.get(key)] *)
Definition get (args : json) (key : string) : res jval :=
  get_default args key JNull.

(** A value used as a number in arithmetic; [bool] is a subclass of
    [int]. *)
Definition as_int (v : jval) : res Z :=
  match v with
  | JInt z => Ok z
  | JBool b => Ok (Z.b2z b)
  | JNull | JStr _ => Exn TypeError
  end.

End Json.

(** * Devices *)

Module Torch.
Import Py.

Inductive device : Type := cuda | mps | cpu.

(** What the host machine offers. *)
Record hardware : Type := {
  cuda_is_available : bool;
  cuda_get_device_name : res string;
  mps_is_available : bool
}.

End Torch.

(** * The progress channel *)

Module Progress.
Import Py Proc.

(** The percentages of the [PROGRESS:] lines of a stream, in order. *)
Definition percents {R : Type} (ls : list (line R)) : list Z :=
  omap (fun l => match l with Progress percent _ => Some percent | _ => None end) ls.

(** What a supervisor reading the progress channel relies on: the
    percentages never decrease, stay within 0..100, and no JSON object is
    mixed into the channel. *)
Definition well_formed {R : Type} (ls : list (line R)) : Prop :=
  StronglySorted Z.le (percents ls)
  /\ Forall (fun p => (0 <= p <= 100)%Z) (percents ls)
  /\ payloads ls = [].

(** The same, as a test: from [low] on, each percentage is at least the
    one before it and at most 100. *)
Fixpoint climbs (low : Z) (ps : list Z) : bool :=
  match ps with
  | [] => true
  | p :: ps' => (low <=? p)%Z && (p <=? 100)%Z && climbs p ps'
  end.

End Progress.

(** * numpy array expressions used by the pitch runner *)

Module Np.
Import Py.
#[local] Open Scope Q_scope.

(** Elementwise binary operation with numpy's broadcasting of
    one-dimensional arrays: equal lengths, or one side of length one. *)
Definition broadcast {A B T} (op : A -> B -> T) (a : list A) (b : list B)
  : res (list T) :=
  if (length a =? length b)%nat then Ok (zip_with op a b)
  else match a, b with
       | [x], _ => Ok (map (op x) b)
       | _, [y] => Ok (map (fun x => op x y) a)
       | _, _ => Exn ValueError
       end.

(** [a[mask]]: the boolean index must have the shape of [a]. *)
Definition bool_index {A} (a : list A) (mask : list bool) : res (list A) :=
  if (length a =? length mask)%nat
  then Ok (omap (fun p : A * bool => if snd p then Some (fst p) else None) (zip a mask))
  else Exn IndexError.

(** [a[mask] = v] *)
Definition mask_assign {A} (a : list A) (mask : list bool) (v : A) : res (list A) :=
  if (length a =? length mask)%nat
  then Ok (zip_with (fun x (m : bool) => if m then v else x) a mask)
  else Exn IndexError.

(** [mask.sum()] *)
Definition count_true (mask : list bool) : nat :=
  length (filter (fun b => b = true) mask).

(** [mask.any()] *)
Definition any (mask : list bool) : bool := existsb id mask.

Definition sum (a : list Q) : Q := fold_right Qplus 0 a.

(** [a.mean()] of a non-empty array. *)
Definition mean (a : list Q) : Q := sum a / inject_Z (Z.of_nat (length a)).

(** numpy scalar division [n / d] of two counts: [0 / 0] is NaN ([None]),
    there is no exception. *)
Definition count_ratio (n d : nat) : option Q :=
  if (d =? 0)%nat then None
  else Some (inject_Z (Z.of_nat n) / inject_Z (Z.of_nat d)).

(** [np.arange(n)] *)
Definition arange (n : nat) : list Q :=
  map (fun i => inject_Z (Z.of_nat i)) (seq 0 n).

End Np.

(** * [crepe_runner.py] *)

Module crepe_runner.
Import Py Proc Json Torch.
#[local] Open Scope Q_scope.
#[local] Open Scope proc_scope.

(** The [pitch_data] object, printed or saved. *)
Record pitch_data : Type := PitchData {
  time : list Q;
  frequency : list Q;
  midi : list Q;
  confidence : list Q;
  sample_rate : Z;
  hop_length : Z;
  model : jval
}.

(** The success object; its [success] field is always [True]. *)
Record result : Type := Result {
  num_frames : nat;
  duration : Q;
  device : Torch.device;
  voiced_percent : option Q;   (* [None] is NaN *)
  avg_confidence : Q;
  pitch_data_field : option pitch_data;
  output_file : jval
}.

(** What [sf.read(path, always_2d=True)] returns. *)
Record sound : Type := Sound {
  channels : nat;
  samples : nat;      (* frames per channel, [audio.shape[1]] *)
  samplerate : Z
}.

(** Calls into external libraries, with the arguments that matter. *)
Inductive ext_call : Type :=
| import_torch
| sf_read (path : jval)
| resample (orig_freq new_freq : Z)
| audio_to (d : Torch.device)
| predict (sample_rate : Z) (hop_length model : jval) (d : Torch.device)
| json_dump (path : jval) (data : pitch_data).

(** The behaviour of everything outside the repository. *)
Record env : Type := Env {
  import_torch_ : res unit;
  host : hardware;
  sf_read_ : res sound;
  resample_ : res unit;
  audio_to_ : res unit;
  predict_ : res (list Q * list Q);   (* frequency, periodicity; flattened *)
  elapsed_time : Q;                   (* time.time() - start_time *)
  np_log2 : Q -> Q;
  json_dump_ : res unit
}.

Abbreviation M := (Proc.M result ext_call).

Definition downsample_factor : nat := 4.

(** Lines 46-53. *)
Definition detect_device (h : hardware) : M Torch.device :=
  if cuda_is_available h
  then (_ <- lift (cuda_get_device_name h) ;; ret cuda)
  else
    (* Force CPU even on Apple Silicon *)
    ret cpu.

(** Line 110: [np.arange(num_frames) * hop_length / sample_rate]. *)
Definition time_array (num_frames : nat) (hop sample_rate : Z) : list Q :=
  map (fun i => i * inject_Z hop / inject_Z sample_rate) (Np.arange num_frames).

(** Line 113: [(frequency > 0) & (confidence > 0.5)]. *)
Definition valid_frames (frequency confidence : list Q) : res (list bool) :=
  Np.broadcast andb (map (Qltb 0) frequency) (map (Qltb (1 # 2)) confidence).

(** Line 114: [(valid_frames.sum() / len(frequency)) * 100]. *)
Definition voiced_percent_of (valid : list bool) (frequency : list Q) : option Q :=
  option_map (fun r => r * 100) (Np.count_ratio (Np.count_true valid) (length frequency)).

(** Line 115: [confidence[valid_frames].mean() if valid_frames.any() else 0]. *)
Definition avg_confidence_of (confidence : list Q) (valid : list bool) : res Q :=
  if Np.any valid
  then match Np.bool_index confidence valid with
       | Ok sel => Ok (Np.mean sel)
       | Exn ex => Exn ex
       end
  else Ok 0.

(** Line 121: [frequency[confidence < 0.5] = 0]. *)
Definition gate (frequency confidence : list Q) : res (list Q) :=
  Np.mask_assign frequency (map (fun c => Qltb c (1 # 2)) confidence) 0.

(** Lines 125-127: [midi] from the gated [frequency]; zero where the
    frequency is not positive. *)
Definition to_midi (log2 : Q -> Q) (frequency : list Q) : list Q :=
  map (fun f => if Qltb 0 f then 69 + 12 * log2 (f / 440) else 0) frequency.

(** Lines 140-157: downsample the four series and build the output. *)
Definition build_pitch_data (time frequency midi confidence : list Q)
    (sample_rate hop : Z) (model_capacity : jval) : pitch_data :=
  let time_ds := slice_step downsample_factor time in
  let frequency_ds := slice_step downsample_factor frequency in
  let midi_ds := slice_step downsample_factor midi in
  let confidence_ds := slice_step downsample_factor confidence in
  {| time := map (fun t => round t 4) time_ds;
     frequency := map (fun f => if Qltb 0 f then round f 2 else 0) frequency_ds;
     midi := map (fun m => if Qltb 0 m then round m 2 else 0) midi_ds;
     confidence := map (fun c => round c 3) confidence_ds;
     sample_rate := sample_rate;
     hop_length := (hop * Z.of_nat downsample_factor)%Z;
     model := model_capacity |}.

(** Lines 168-177: the success object. *)
Definition build_result (time : list Q) (device : Torch.device)
    (voiced_percent : option Q) (avg_confidence : Q)
    (pitch_data : pitch_data) (output_path : jval) : result :=
  {| num_frames := length (slice_step downsample_factor time);
     duration := List.last time 0;
     device := device;
     voiced_percent := option_map (fun v => round v 1) voiced_percent;
     avg_confidence := round avg_confidence 3;
     pitch_data_field := if truthy output_path then None else Some pitch_data;
     output_file := output_path |}.

(** Lines 40-178, the body of the [try]. *)
Definition body (e : env) (input_path output_path hop_length model_capacity : jval)
  : M unit :=
  call import_torch (import_torch_ e) ;;
  device <- detect_device (host e) ;;
  progress 0 "Loading vocal audio on {device_name}" ;;
  audio <- call (sf_read input_path) (sf_read_ e) ;;
  let sample_rate := samplerate audio in
  duration <- lift (truediv (inject_Z (Z.of_nat (samples audio))) (inject_Z sample_rate)) ;;
  progress 5 "Loaded {duration:.1f}s of audio" ;;
  (* Convert to mono if stereo *)
  (if (1 <? channels audio)%nat
   then progress 8 "Converted to mono"
   else ret tt) ;;
  (* Resample to 16kHz (CREPE's expected sample rate) *)
  sample_rate <-
    (if negb (sample_rate =? 16000)%Z
     then progress 10 "Resampling from {sample_rate}Hz to 16kHz" ;;
          call (resample sample_rate 16000) (resample_ e) ;;
          ret 16000%Z
     else ret sample_rate) ;;
  call (audio_to device) (audio_to_ e) ;;
  progress 15 "Detecting pitch ({model_capacity} model)..." ;;
  (* Run CREPE *)
  fp <- call (predict sample_rate hop_length model_capacity device) (predict_ e) ;;
  let frequency := fst fp in
  let confidence := snd fp in
  progress 75 "Processing pitch data (CREPE took {elapsed_time:.1f}s for {duration:.1f}s audio)" ;;
  lift (truediv (elapsed_time e) duration) ;;
  eprint (Text "CREPE timing: {elapsed_time:.1f}s for {duration:.1f}s of audio ({elapsed_time/duration:.2f}x realtime)") ;;
  (* Compute time array from hop_length *)
  hop <- lift (as_int hop_length) ;;
  let time := time_array (length frequency) hop sample_rate in
  (* Calculate stats *)
  valid <- lift (valid_frames frequency confidence) ;;
  let voiced_percent := voiced_percent_of valid frequency in
  avg_confidence <- lift (avg_confidence_of confidence valid) ;;
  progress 80 "Found pitch in {voiced_percent:.0f}% of frames" ;;
  (* Filter out low confidence predictions *)
  frequency <- lift (gate frequency confidence) ;;
  (* Convert frequency to MIDI note numbers for easier use *)
  let midi := to_midi (np_log2 e) frequency in
  (* Calculate vocal range *)
  (if Np.any (map (Qltb 0) frequency)
   then progress 85 "Vocal range: {range_semitones:.0f} semitones"
   else progress 85 "No pitched vocals detected") ;;
  progress 90 "Downsampled to {len(time_ds)} points" ;;
  let pitch_data :=
    build_pitch_data time frequency midi confidence sample_rate hop model_capacity in
  (* Save to file if output path specified *)
  (if truthy output_path
   then progress 95 "Saving pitch data" ;;
        call (json_dump output_path pitch_data) (json_dump_ e)
   else ret tt) ;;
  progress 100 "Pitch detection complete ({len(time_ds)} points)" ;;
  (* Output result *)
  print (Json (Success
    (build_result time device voiced_percent avg_confidence pitch_data output_path))).

(** Lines 20-186. *)
Definition main (e : env) (argv : option argument) : M unit :=
  match argv with
  | None =>
      print (Json (Failure "Missing arguments" None)) ;; sys_exit 1
  | Some (Malformed why) =>
      print (Json (Failure ("Invalid JSON arguments: " ++ why) None)) ;; sys_exit 1
  | Some (Parsed args) =>
      input_path <- lift (get args "input") ;;
      output_path <- lift (get args "output") ;;
      hop_length <- lift (get_default args "hop_length" (JInt 512)) ;;
      model_capacity <- lift (get_default args "model" (JStr "tiny")) ;;
      if negb (truthy input_path)
      then print (Json (Failure "Missing input path" None)) ;; sys_exit 1
      else
        try_except
          (body e input_path output_path hop_length model_capacity)
          (fun ex => print (Json (Failure (str ex) (Some ex))) ;; sys_exit 1)
  end.

End crepe_runner.

(** * [demucs_runner.py] *)

Module demucs_runner.
Import Py Proc Json Torch.
#[local] Open Scope Q_scope.
#[local] Open Scope proc_scope.

(** The success object; its [success] field is always [True]. *)
Record result : Type := Result {
  stems : gmap string string;
  model : jval;
  device : Torch.device;
  sample_rate : Z;
  duration : Q
}.

(** What [get_model(model_name)] returns, as far as the runner reads it. *)
Record separator : Type := Separator {
  sources : list string;
  samplerate : Z;
  audio_channels : nat
}.

(** What [sf.read(path, always_2d=True)] returns. *)
Record sound : Type := Sound {
  channels : nat;
  samples : nat;
  sound_rate : Z
}.

Inductive ext_call : Type :=
| import_demucs
| get_model (name : jval)
| model_to (d : Torch.device)
| sf_read (path : jval)
| convert_audio (from_rate to_rate : Z) (to_channels : nat)
| apply_model (d : Torch.device)
| resample (orig_freq new_freq : Z)
| mkdir (path : string)
| sf_write (path : string) (rate : Z).

Record env : Type := Env {
  import_demucs_ : res unit;
  host : hardware;
  get_model_ : res separator;
  model_to_ : res unit;
  sf_read_ : res sound;
  convert_audio_ : res unit;
  apply_model_ : res nat;          (* [sources.shape[1]], the separated sources *)
  resample_ : res unit;
  mkdir_ : res unit;
  sf_write_ : string -> res unit   (* by destination path *)
}.

Abbreviation M := (Proc.M result ext_call).

(** Lines 47-56. *)
Definition detect_device (h : hardware) : M Torch.device :=
  if cuda_is_available h
  then (_ <- lift (cuda_get_device_name h) ;; ret cuda)
  else if mps_is_available h
  then ret mps
  else ret cpu.

(** [Path(output_dir)] wants a string. *)
Definition as_path (v : jval) : res string :=
  match v with
  | JStr s => Ok s
  | _ => Exn TypeError
  end.

(** [str(output_path / file)], path normalisation aside. *)
Definition path_join (dir file : string) : string := dir ++ "/" ++ file.

(** [sources[0, i]] *)
Definition source_at (separated i : nat) : res unit :=
  if (i <? separated)%nat then Ok tt else Exn IndexError.

(** Lines 127-136: the loop over [enumerate(source_names)], entered at
    index [i] with the dictionary built so far. *)
Fixpoint save_stems (e : env) (output_path : string) (separated : nat)
    (sample_rate : Z) (num_sources : nat) (i : nat) (names : list string)
    (stem_files : gmap string string) : M (gmap string string) :=
  match names with
  | [] => ret stem_files
  | name :: names' =>
      let stem_progress :=
        Qfloor (85 + (inject_Z (Z.of_nat i) / inject_Z (Z.of_nat num_sources)) * 14) in
      progress stem_progress "Saving {label}" ;;
      lift (source_at separated i) ;;
      let stem_path := path_join output_path (name ++ ".wav") in
      call (sf_write stem_path sample_rate) (sf_write_ e stem_path) ;;
      save_stems e output_path separated sample_rate num_sources (S i) names'
        (<[name := stem_path]> stem_files)
  end.

(** Lines 40-147, the body of the [try]. *)
Definition body (e : env) (input_path output_dir model_name : jval) : M unit :=
  call import_demucs (import_demucs_ e) ;;
  device <- detect_device (host e) ;;
  progress 0 "Loading model on {device_name}" ;;
  (* Load model *)
  model <- call (get_model model_name) (get_model_ e) ;;
  call (model_to device) (model_to_ e) ;;
  let source_names := sources model in
  progress 5 "Loading audio file" ;;
  audio <- call (sf_read input_path) (sf_read_ e) ;;
  let sample_rate := sound_rate audio in
  duration <- lift (truediv (inject_Z (Z.of_nat (samples audio))) (inject_Z sample_rate)) ;;
  progress 8 "Loaded {duration:.1f}s audio" ;;
  (* Convert to model format and move to device *)
  call (convert_audio sample_rate (samplerate model) (audio_channels model))
       (convert_audio_ e) ;;
  progress 10 "Separating {stems_str}" ;;
  separated <- call (apply_model device) (apply_model_ e) ;;
  progress 82 "Separation complete!" ;;
  (* Resample if needed *)
  (if negb (samplerate model =? sample_rate)%Z
   then progress 83 "Resampling to {sample_rate}Hz" ;;
        call (resample (samplerate model) sample_rate) (resample_ e)
   else ret tt) ;;
  (* Save stems *)
  output_path <- lift (as_path output_dir) ;;
  call (mkdir output_path) (mkdir_ e) ;;
  let num_sources := length source_names in
  stem_files <- save_stems e output_path separated sample_rate num_sources 0
                  source_names ∅ ;;
  progress 100 "Saved {num_sources} stems" ;;
  print (Json (Success
    {| stems := stem_files;
       model := model_name;
       device := device;
       sample_rate := sample_rate;
       duration := duration |})).

(** Lines 20-155. *)
Definition main (e : env) (argv : option argument) : M unit :=
  match argv with
  | None =>
      print (Json (Failure "Missing arguments" None)) ;; sys_exit 1
  | Some (Malformed why) =>
      print (Json (Failure ("Invalid JSON arguments: " ++ why) None)) ;; sys_exit 1
  | Some (Parsed args) =>
      input_path <- lift (get args "input") ;;
      output_dir <- lift (get args "output_dir") ;;
      model_name <- lift (get_default args "model" (JStr "htdemucs_ft")) ;;
      _ <- lift (get_default args "num_stems" (JInt 4)) ;;
      if negb (truthy input_path) || negb (truthy output_dir)
      then print (Json (Failure "Missing input or output_dir" None)) ;; sys_exit 1
      else
        try_except
          (body e input_path output_dir model_name)
          (fun ex => print (Json (Failure (str ex) (Some ex))) ;; sys_exit 1)
  end.

End demucs_runner.

(** * [whisper_runner.py] *)

Module whisper_runner.
Import Py Proc Json Torch.
#[local] Open Scope Q_scope.
#[local] Open Scope proc_scope.

(** [{"word": ..., "start": ..., "end": ...}] *)
Record word_data : Type := WordData {
  word : string;
  start : Q;
  end_ : Q
}.

(** [{**word_data, "probability": 0.9}] *)
Record timed_word : Type := TimedWord {
  data : word_data;
  probability : Q
}.

(** An entry of [lines]. *)
Record line_data : Type := LineData {
  line_text : string;
  line_start : Q;
  line_end : Q;
  line_words : list word_data
}.

(** The success object; its [success] field is always [True]. *)
Record result : Type := Result {
  text : string;
  language : jval;
  lines : list line_data;
  words : list timed_word;
  model : jval;
  device : Torch.device;
  duration : Q;
  avgConfidence : Q
}.

(** A segment of the model's output: [segment["text"]],
    [segment["start"]], [segment["end"]]. *)
Record segment : Type := Segment {
  segment_text : string;
  segment_start : Q;
  segment_end : Q
}.

(** The dictionary [model.transcribe] returns; a missing key is [None]. *)
Record transcription : Type := Transcription {
  result_text : option string;
  result_language : option string;
  result_segments : option (list segment)
}.

Inductive ext_call : Type :=
| import_whisper
| load_model (name : jval) (d : Torch.device)
| load_audio (path : jval)
| transcribe (language initial_prompt : jval).

Record env : Type := Env {
  import_whisper_ : res unit;
  host : hardware;
  load_model_ : res unit;
  load_audio_ : res nat;               (* [len(audio)] *)
  transcribe_verbose : list string;    (* what [verbose=True] prints *)
  transcribe_ : res transcription
}.

Abbreviation M := (Proc.M result ext_call).

(** [whisper.audio.SAMPLE_RATE] *)
Definition SAMPLE_RATE : Z := 16000.

(** Lines 44-53. *)
Definition detect_device (h : hardware) : M Torch.device :=
  if cuda_is_available h
  then (_ <- lift (cuda_get_device_name h) ;; ret cuda)
  else if mps_is_available h
  then ret mps
  else ret cpu.

(** [initial_prompt.split()] wants a string. *)
Definition prompt_words (v : jval) : res (list string) :=
  match v with
  | JStr s => Ok (split s)
  | _ => Exn AttributeError
  end.

(** Lines 119-128: the words of one segment, spread evenly over it. *)
Definition estimate_words (segment_start segment_duration : Q)
    (text_words : list string) : list word_data :=
  let word_duration := segment_duration / inject_Z (Z.of_nat (length text_words)) in
  imap (fun i word_text =>
          let word_start := segment_start + (inject_Z (Z.of_nat i) * word_duration) in
          let word_end := word_start + word_duration in
          {| word := word_text;
             start := round word_start 3;
             end_ := round word_end 3 |})
       text_words.

(** Lines 109-128: [segment_words] of one iteration. *)
Definition segment_words (s : segment) : list word_data :=
  let text := strip (segment_text s) in
  let segment_duration := segment_end s - segment_start s in
  let text_words := split text in
  match text_words with
  | [] => []
  | _ => estimate_words (segment_start s) segment_duration text_words
  end.

(** Lines 134-140: the line of one iteration, if it has words. *)
Definition segment_line (s : segment) : list line_data :=
  match segment_words s with
  | [] => []
  | ws => [{| line_text := strip (segment_text s);
              line_start := round (segment_start s) 3;
              line_end := round (segment_end s) 3;
              line_words := ws |}]
  end.

(** Lines 105-140: the two lists the loop builds. *)
Definition extract_words (segments : list segment) : list timed_word :=
  flat_map (fun s => map (fun w => {| data := w; probability := 9 # 10 |})
                         (segment_words s)) segments.

Definition extract_lines (segments : list segment) : list line_data :=
  flat_map segment_line segments.

(** Line 145. *)
Definition avg_confidence_of (words : list timed_word) : Q :=
  match words with
  | [] => 0
  | _ => Np.sum (map probability words) / inject_Z (Z.of_nat (length words))
  end.

(** Lines 39-161, the body of the [try]. *)
Definition body (e : env) (input_path model_name initial_prompt language : jval)
  : M unit :=
  call import_whisper (import_whisper_ e) ;;
  device <- detect_device (host e) ;;
  progress 0 "Loading Whisper {model_name} on {device_name}" ;;
  (* Load model *)
  call (load_model model_name device) (load_model_ e) ;;
  progress 15 "Loading audio for transcription" ;;
  audio_len <- call (load_audio input_path) (load_audio_ e) ;;
  let duration := inject_Z (Z.of_nat audio_len) / inject_Z SAMPLE_RATE in
  progress 20 "Transcribing {duration:.1f}s of audio..." ;;
  (if truthy initial_prompt
   then lift (prompt_words initial_prompt) ;;
        progress 22 "Using vocabulary hints ({len(initial_prompt.split())} words)"
   else ret tt) ;;
  let num_chunks := Z.max 1 (Qfloor (duration / 30)) in
  (if (1 <? num_chunks)%Z
   then progress 25 "Processing ~{num_chunks} segments..."
   else ret tt) ;;
  (* Redirect stdout to stderr during transcription *)
  old_stdout <- get_sys_stdout ;;
  set_sys_stdout Stderr ;;
  fold_right (fun l k => print (Text l) ;; k) (ret tt) (transcribe_verbose e) ;;
  result <- call (transcribe language initial_prompt) (transcribe_ e) ;;
  (* Restore stdout *)
  set_sys_stdout old_stdout ;;
  progress 85 "Extracting line timestamps" ;;
  let segments := default [] (result_segments result) in
  let words := extract_words segments in
  let lines := extract_lines segments in
  progress 95 "Organized into {len(lines)} lines" ;;
  let avg_confidence := avg_confidence_of words in
  progress 100 "Transcribed {len(words)} words, {len(lines)} lines" ;;
  print (Json (Success
    {| text := strip (default "" (result_text result));
       language := default language (JStr <$> result_language result);
       lines := lines;
       words := words;
       model := model_name;
       device := device;
       duration := duration;
       avgConfidence := round avg_confidence 3 |})).

(** Lines 19-169. *)
Definition main (e : env) (argv : option argument) : M unit :=
  match argv with
  | None =>
      print (Json (Failure "Missing arguments" None)) ;; sys_exit 1
  | Some (Malformed why) =>
      print (Json (Failure ("Invalid JSON arguments: " ++ why) None)) ;; sys_exit 1
  | Some (Parsed args) =>
      input_path <- lift (get args "input") ;;
      model_name <- lift (get_default args "model" (JStr "large-v3-turbo")) ;;
      initial_prompt <- lift (get args "initial_prompt") ;;
      language <- lift (get_default args "language" (JStr "en")) ;;
      if negb (truthy input_path)
      then print (Json (Failure "Missing input path" None)) ;; sys_exit 1
      else
        try_except
          (body e input_path model_name initial_prompt language)
          (fun ex => print (Json (Failure (str ex) (Some ex))) ;; sys_exit 1)
  end.

End whisper_runner.

(** * Observing finished runs *)

Module crepe_runs.
Import Py Proc Json Torch crepe_runner.
#[local] Open Scope Q_scope.

Abbreviation exited := (Proc.exited result ext_call).

(** The success objects a finished run has written to standard output. *)
Definition results_of (x : exited) : list result :=
  omap (fun p => match p with Success r => Some r | Failure _ _ => None end)
       (payloads (stdout (final x))).

(** The [pitch_data] objects a finished run has saved to a file. *)
Definition saved_of (x : exited) : list pitch_data :=
  omap (fun c => match c with (json_dump _ data, true) => Some data | _ => None end)
       (calls (final x)).

(** Every [pitch_data] object of a finished run, printed or saved. *)
Definition pitch_data_of (x : exited) : list pitch_data :=
  omap pitch_data_field (results_of x) ++ saved_of x.

(** The first [pitch_data] object of a run of [main], if there is one. *)
Definition hd_pitch_data (e : env) (argv : option argument) : pitch_data :=
  hd (PitchData [] [] [] [] 0 0 JNull) (pitch_data_of (run (main e argv))).

(** The devices a finished run has handed to the estimator. *)
Definition inference_devices (x : exited) : list Torch.device :=
  omap (fun c => match c with (predict _ _ _ d, _) => Some d | _ => None end)
       (calls (final x)).

(** Frames that count as voiced in the statistics: [frequency > 0] and
    [confidence > 0.5], over the estimator's raw output. *)
Definition voiced (f c : Q) : bool := Qltb 0 f && Qltb (1 # 2) c.

Fixpoint count_voiced (frequency confidence : list Q) : nat :=
  match frequency, confidence with
  | f :: frequency', c :: confidence' =>
      (if voiced f c then 1 else 0) + count_voiced frequency' confidence'
  | _, _ => 0
  end.

(** The request options as [main] reads them from an object. *)
Definition input_of (fields : gmap string jval) : jval := default JNull (fields !! "input").
Definition output_of (fields : gmap string jval) : jval := default JNull (fields !! "output").
Definition hop_length_of (fields : gmap string jval) : jval :=
  default (JInt 512) (fields !! "hop_length").
Definition model_of (fields : gmap string jval) : jval :=
  default (JStr "tiny") (fields !! "model").

(** A run that got through the whole [try] body, with the intermediate
    values of that body: the sound file, the estimator's raw output, the
    numeric hop length, the mask of valid frames, the mean confidence and
    the gated frequencies. *)
Inductive succeeds (e : env) (argv : option argument) (x : exited) : Prop :=
| Succeeds (fields : gmap string jval) (audio : sound)
    (raw_frequency raw_confidence : list Q) (seconds speed : Q) (hop : Z)
    (valid : list bool) (avg : Q) (gated : list Q)
    (Hargv : argv = Some (Parsed (JObject fields)))
    (Hinput : truthy (input_of fields) = true)
    (Hread : sf_read_ e = Ok audio)
    (Hseconds : truediv (inject_Z (Z.of_nat (samples audio)))
                        (inject_Z (samplerate audio)) = Ok seconds)
    (Hpredict : predict_ e = Ok (raw_frequency, raw_confidence))
    (Hspeed : truediv (elapsed_time e) seconds = Ok speed)
    (Hhop : as_int (hop_length_of fields) = Ok hop)
    (Hvalid : valid_frames raw_frequency raw_confidence = Ok valid)
    (Havg : avg_confidence_of raw_confidence valid = Ok avg)
    (Hgate : gate raw_frequency raw_confidence = Ok gated)
    (Hstatus : status x = 0%Z)
    (Hout :
       let d := if cuda_is_available (host e) then cuda else cpu in
       let time := time_array (length raw_frequency) hop 16000 in
       let data :=
         build_pitch_data time gated (to_midi (np_log2 e) gated) raw_confidence
           16000 hop (model_of fields) in
       stdout (final x) =
         [Json (Success (build_result time d (voiced_percent_of valid raw_frequency)
                           avg data (output_of fields)))]
       /\ calls (final x) =
            map (fun c => (c, true))
              ([import_torch; sf_read (input_of fields)]
               ++ (if (samplerate audio =? 16000)%Z then []
                   else [resample (samplerate audio) 16000])
               ++ [audio_to d; predict 16000 (hop_length_of fields) (model_of fields) d]
               ++ (if truthy (output_of fields) then [json_dump (output_of fields) data]
                   else [])))
    (Himport : import_torch_ e = Ok tt)
    (Hname : cuda_is_available (host e) = true ->
             exists name, cuda_get_device_name (host e) = Ok name)
    (Hresample : (samplerate audio =? 16000)%Z = false -> resample_ e = Ok tt)
    (Hto : audio_to_ e = Ok tt)
    (Hdump : truthy (output_of fields) = true -> json_dump_ e = Ok tt).

(** The steps of [main] that can stop a run on a request object, in
    program order: a false [input], or a call or an expression that
    raises. *)
Inductive blocked (e : env) (fields : gmap string jval) : Prop :=
| missing_input :
    truthy (input_of fields) = false -> blocked e fields
| import_raises ex :
    import_torch_ e = Exn ex -> blocked e fields
| device_name_raises ex :
    cuda_is_available (host e) = true ->
    cuda_get_device_name (host e) = Exn ex -> blocked e fields
| read_raises ex :
    sf_read_ e = Exn ex -> blocked e fields
| zero_sample_rate audio ex :
    sf_read_ e = Ok audio ->
    truediv (inject_Z (Z.of_nat (samples audio))) (inject_Z (samplerate audio)) = Exn ex ->
    blocked e fields
| resample_raises audio ex :
    sf_read_ e = Ok audio -> (samplerate audio =? 16000)%Z = false ->
    resample_ e = Exn ex -> blocked e fields
| audio_to_raises ex :
    audio_to_ e = Exn ex -> blocked e fields
| predict_raises ex :
    predict_ e = Exn ex -> blocked e fields
| zero_duration audio seconds ex :
    sf_read_ e = Ok audio ->
    truediv (inject_Z (Z.of_nat (samples audio))) (inject_Z (samplerate audio)) = Ok seconds ->
    truediv (elapsed_time e) seconds = Exn ex -> blocked e fields
| hop_length_not_a_number ex :
    as_int (hop_length_of fields) = Exn ex -> blocked e fields
| shapes_differ raw_frequency raw_confidence :
    predict_ e = Ok (raw_frequency, raw_confidence) ->
    length raw_frequency <> length raw_confidence -> blocked e fields
| dump_raises ex :
    truthy (output_of fields) = true -> json_dump_ e = Exn ex -> blocked e fields.

(** A run that ended in the [except] handler or in one of the early
    exits: one error object on standard output, exit status 1, and no
    file saved. *)
Definition fails (x : exited) : Prop :=
  exists error traceback,
    stdout (final x) = [Json (Failure error traceback)]
    /\ status x = 1%Z
    /\ saved_of x = [].

(** A run that died of an exception nothing caught. *)
Definition crashes (x : exited) : Prop :=
  stdout (final x) = [] /\ status x = 1%Z /\ saved_of x = [].

(** The confidences of the voiced frames, in frame order. *)
Fixpoint voiced_confidences (frequency confidence : list Q) : list Q :=
  match frequency, confidence with
  | f :: frequency', c :: confidence' =>
      (if voiced f c then [c] else []) ++ voiced_confidences frequency' confidence'
  | _, _ => []
  end.

End crepe_runs.

(** * Concrete requests and environments *)

Module crepe_examples.
Import Py Proc Json Torch crepe_runner.
#[local] Open Scope Q_scope.

(** A computable stand-in for [np.log2] in the closed examples: exact at
    the powers of two, the chord between two consecutive powers of two
    elsewhere.  The examples that depend on a pitch value only evaluate
    it at powers of two. *)
Definition floor_log2 (q : Q) : Z :=
  let k := (Z.log2 (Qnum q) - Z.log2 (Zpos (Qden q)))%Z in
  if Qle_bool (2 ^ k) q then k else (k - 1)%Z.

Definition log2_chord (q : Q) : Q :=
  let k := floor_log2 q in
  Qred (inject_Z k + (q / 2 ^ k - 1)).

(** An Apple-Silicon laptop, and a CUDA workstation. *)
Definition laptop : hardware :=
  {| cuda_is_available := false;
     cuda_get_device_name := Exn (LibraryError "Torch not compiled with CUDA enabled");
     mps_is_available := true |}.

Definition workstation : hardware :=
  {| cuda_is_available := true;
     cuda_get_device_name := Ok "NVIDIA GeForce RTX 3090";
     mps_is_available := false |}.

(** [{"input": "vocals.wav"}] and
    [{"input": "vocals.wav", "output": "pitch.json"}] *)
Definition request : option argument :=
  Some (Parsed (JObject {[ "input" := JStr "vocals.wav" ]})).

Definition request_to_file : option argument :=
  Some (Parsed (JObject {[ "input" := JStr "vocals.wav"; "output" := JStr "pitch.json" ]})).

(** A world in which every library call succeeds on a mono file of a
    tenth of a second at 44.1 kHz, with the given estimator output. *)
Definition studio (h : hardware) (frequency periodicity : list Q) : env :=
  {| import_torch_ := Ok tt;
     host := h;
     sf_read_ := Ok {| channels := 1; samples := 4410; samplerate := 44100 |};
     resample_ := Ok tt;
     audio_to_ := Ok tt;
     predict_ := Ok (frequency, periodicity);
     elapsed_time := 1 # 4;
     np_log2 := log2_chord;
     json_dump_ := Ok tt |}.

(** Nine frames: seven voiced, the fifth and the ninth below the
    confidence threshold. *)
Definition nine_frequencies : list Q :=
  [440; 220; 110; 880; 220; 330; 440; 440; 880].
Definition nine_confidences : list Q :=
  [9 # 10; 8 # 10; 7 # 10; 6 # 10; 3 # 10; 9 # 10; 9 # 10; 9 # 10; 12345 # 100000].

Definition nine_frames : env := studio laptop nine_frequencies nine_confidences.




(** The same world, with the file empty: zero samples. *)
Definition empty_file : env :=
  {| import_torch_ := Ok tt;
     host := laptop;
     sf_read_ := Ok {| channels := 1; samples := 0; samplerate := 44100 |};
     resample_ := Ok tt;
     audio_to_ := Ok tt;
     predict_ := Ok ([0], [0]);
     elapsed_time := 1 # 4;
     np_log2 := log2_chord;
     json_dump_ := Ok tt |}.

End crepe_examples.

Module demucs_runs.
Import Py Proc Json Torch demucs_runner.
#[local] Open Scope Q_scope.

Abbreviation exited := (Proc.exited result ext_call).
(** The success objects a finished run has written to standard output. *)
Definition results_of (x : exited) : list result :=
  omap (fun p => match p with Success r => Some r | Failure _ _ => None end)
       (payloads (stdout (final x))).
(** Line 133: [output_path / f"{name}.wav"]. *)
Definition stem_path (output_dir name : string) : string :=
  path_join output_dir (name ++ ".wav").
(** The request options as [main] reads them from an object. *)
Definition input_of (fields : gmap string jval) : jval := default JNull (fields !! "input").
Definition output_dir_of (fields : gmap string jval) : jval :=
  default JNull (fields !! "output_dir").
Definition model_of (fields : gmap string jval) : jval :=
  default (JStr "htdemucs_ft") (fields !! "model").
(** The device of lines 47-56. *)
Definition detected (h : hardware) : Torch.device :=
  if cuda_is_available h then cuda else if mps_is_available h then mps else cpu.

(** A run that got through the whole [try] body. *)
Inductive succeeds (e : env) (argv : option argument) (x : exited) : Prop :=
| Succeeds (fields : gmap string jval) (model : separator) (audio : sound)
    (seconds : Q) (separated : nat) (output_path : string)
    (Hargv : argv = Some (Parsed (JObject fields)))
    (Hmodel : get_model_ e = Ok model)
    (Hread : sf_read_ e = Ok audio)
    (Hseconds : truediv (inject_Z (Z.of_nat (samples audio)))
                        (inject_Z (sound_rate audio)) = Ok seconds)
    (Hseparated : apply_model_ e = Ok separated)
    (Henough : (length (sources model) <= separated \/ sources model = [])%nat)
    (Hpath : as_path (output_dir_of fields) = Ok output_path)
    (Hmkdir : mkdir_ e = Ok tt)
    (Hwrites : Forall (fun name => sf_write_ e (stem_path output_path name) = Ok tt)
                      (sources model))
    (Hstatus : status x = 0%Z)
    (Hout : stdout (final x) =
              [Json (Success
                 {| stems := foldl (fun acc name => <[name := stem_path output_path name]> acc)
                                   ∅ (sources model);
                    model := model_of fields;
                    device := detected (host e);
                    sample_rate := sound_rate audio;
                    duration := seconds |})]).

(** A request for the stems of song.wav under the directory out. *)
Definition request : option argument :=
  Some (Parsed (JObject {[ "input" := JStr "song.wav"; "output_dir" := JStr "out" ]})).

(** A laptop on which every call succeeds, with a four-source model
    and the given behaviour of the stem writes. *)
Definition four_stems (sf_write_ : string -> res unit) : env :=
  {| import_demucs_ := Ok tt;
     host := {| cuda_is_available := false;
                cuda_get_device_name := Exn (LibraryError "Torch not compiled with CUDA enabled");
                mps_is_available := true |};
     get_model_ := Ok {| sources := ["drums"; "bass"; "other"; "vocals"];
                         samplerate := 44100; audio_channels := 2 |};
     model_to_ := Ok tt;
     sf_read_ := Ok {| channels := 2; samples := 4800; sound_rate := 48000 |};
     convert_audio_ := Ok tt;
     apply_model_ := Ok 4%nat;
     resample_ := Ok tt;
     mkdir_ := Ok tt;
     sf_write_ := sf_write_ |}.

Definition disk_ok : string -> res unit := fun _ => Ok tt.

Definition disk_full_at (path : string) : string -> res unit :=
  fun p => if String.eqb p path then Exn (LibraryError "No space left on device") else Ok tt.

(** A run that ended in the [except] handler or an early exit. *)
Definition fails (x : exited) : Prop :=
  exists error traceback,
    stdout (final x) = [Json (Failure error traceback)] /\ status x = 1%Z.

(** A run that died of an exception nothing caught. *)
Definition crashes (x : exited) : Prop :=
  stdout (final x) = [] /\ status x = 1%Z.

(** Line 128: [int(85 + (i / num_sources) * 14)]. *)
Definition stem_progress (num_sources i : nat) : Z :=
  Qfloor (85 + (inject_Z (Z.of_nat i) / inject_Z (Z.of_nat num_sources)) * 14).

End demucs_runs.

Module whisper_runs.
Import Py Proc Json Torch whisper_runner.
#[local] Open Scope Q_scope.

Abbreviation exited := (Proc.exited result ext_call).

(** The success objects a finished run has written to standard output. *)
Definition results_of (x : exited) : list result :=
  omap (fun p => match p with Success r => Some r | Failure _ _ => None end)
       (payloads (stdout (final x))).

(** The request options as [main] reads them from an object. *)
Definition input_of (fields : gmap string jval) : jval := default JNull (fields !! "input").
Definition model_of (fields : gmap string jval) : jval :=
  default (JStr "large-v3-turbo") (fields !! "model").
Definition prompt_of (fields : gmap string jval) : jval :=
  default JNull (fields !! "initial_prompt").
Definition language_of (fields : gmap string jval) : jval :=
  default (JStr "en") (fields !! "language").

(** The device of lines 44-53. *)
Definition detected (h : hardware) : Torch.device :=
  if cuda_is_available h then cuda else if mps_is_available h then mps else cpu.

(** A run that got through the whole [try] body. *)
Inductive succeeds (e : env) (argv : option argument) (x : exited) : Prop :=
| Succeeds (fields : gmap string jval) (audio_len : nat) (t : transcription)
    (Hargv : argv = Some (Parsed (JObject fields)))
    (Haudio : load_audio_ e = Ok audio_len)
    (Htranscribe : transcribe_ e = Ok t)
    (Hstatus : status x = 0%Z)
    (Hout : stdout (final x) =
              [Json (Success
                 {| text := strip (default "" (result_text t));
                    language := default (language_of fields) (JStr <$> result_language t);
                    lines := extract_lines (default [] (result_segments t));
                    words := extract_words (default [] (result_segments t));
                    model := model_of fields;
                    device := detected (host e);
                    duration := inject_Z (Z.of_nat audio_len) / inject_Z SAMPLE_RATE;
                    avgConfidence :=
                      round (avg_confidence_of
                               (extract_words (default [] (result_segments t)))) 3 |})]).

(** A run that ended in the [except] handler or an early exit, with the
    error object on standard output. *)
Definition fails (x : exited) : Prop :=
  exists error traceback,
    stdout (final x) = [Json (Failure error traceback)] /\ status x = 1%Z.

(** A run whose error object went to standard error: nothing at all on
    standard output. *)
Definition misdirects (x : exited) : Prop :=
  exists error traceback,
    stdout (final x) = []
    /\ In (Failure error traceback) (payloads (stderr (final x)))
    /\ sys_stdout (final x) = Stderr
    /\ status x = 1%Z.

(** A run that died of an exception nothing caught. *)
Definition crashes (x : exited) : Prop :=
  stdout (final x) = [] /\ status x = 1%Z.

(** A laptop on which every call before [model.transcribe] succeeds on
    three seconds of audio, with the given outcome of the transcription. *)
Definition session (said : list string) (outcome : res transcription) : env :=
  {| import_whisper_ := Ok tt;
     host := {| cuda_is_available := false;
                cuda_get_device_name := Exn (LibraryError "Torch not compiled with CUDA enabled");
                mps_is_available := true |};
     load_model_ := Ok tt;
     load_audio_ := Ok 4800%nat;
     transcribe_verbose := said;
     transcribe_ := outcome |}.

Definition request : option argument :=
  Some (Parsed (JObject {[ "input" := JStr "vocals.wav" ]})).

(** A request for a language code the model does not know. *)
Definition request_zz : option argument :=
  Some (Parsed (JObject {[ "input" := JStr "vocals.wav"; "language" := JStr "zz" ]})).

Definition la_la_la : segment :=
  {| segment_text := " la la la"; segment_start := 0; segment_end := 3 |}.

Definition a_b_c : segment :=
  {| segment_text := " a b c"; segment_start := 0; segment_end := 1 |}.

Definition two_lines : env :=
  session ["[00:00.000 --> 00:03.000]  la la la"]
    (Ok {| result_text := Some " la la la a b c";
           result_language := Some "en";
           result_segments := Some [la_la_la; a_b_c] |}).

Definition unsupported_language : env :=
  session [] (Exn (LibraryError "Unsupported language: zz")).

(** Lines 83-85: the [initial_prompt] parameter of [model.transcribe] is
    set only when the request's is true. *)
Definition prompt_parameter (v : jval) : option jval :=
  if truthy v then Some v else None.

End whisper_runs.

(** * Facts about the runtime fragments *)

Module PyFacts.
Import Py.
#[local] Open Scope Q_scope.

Lemma Qltb_lt x y : Qltb x y = true <-> x < y.
Proof.
  unfold Qltb. rewrite negb_true_iff, <- not_true_iff_false, Qle_bool_iff.
  split; [apply Qnot_le_lt | apply Qlt_not_le].
Qed.

Lemma Qltb_ge x y : Qltb x y = false <-> y <= x.
Proof. unfold Qltb. rewrite negb_false_iff. apply Qle_bool_iff. Qed.

Lemma Qltb_comp x x' y y' : x == x' -> y == y' -> Qltb x y = Qltb x' y'.
Proof. intros Hx Hy. unfold Qltb. now rewrite Hx, Hy. Qed.

(** ** Slices *)

Lemma slice_from_lookup {A} (step : nat) (a : list A) :
  (0 < step)%nat ->
  forall skip j, slice_from step skip a !! j = a !! (skip + j * step)%nat.
Proof.
  intros Hstep. induction a as [|x a IH]; intros skip j; simpl.
  - now rewrite !lookup_nil.
  - destruct skip as [|skip].
    + destruct j as [|j]; simpl; [reflexivity|].
      rewrite IH.
      replace (step + j * step)%nat with (S (step - 1 + j * step)) by lia.
      reflexivity.
    + rewrite IH. reflexivity.
Qed.

Lemma slice_step_lookup {A} (step : nat) (a : list A) j :
  (0 < step)%nat -> slice_step step a !! j = a !! (j * step)%nat.
Proof. intros H. unfold slice_step. now rewrite slice_from_lookup. Qed.

Lemma slice_from_4_length {A} (a : list A) :
  forall skip, (skip <= 3)%nat ->
    length (slice_from 4 skip a) = ((length a - skip + 3) / 4)%nat.
Proof.
  induction a as [|x a IH]; intros skip Hskip.
  - reflexivity.
  - destruct skip as [|skip]; cbn [slice_from length].
    + rewrite IH by lia. change (4 - 1)%nat with 3%nat.
      pose proof (Nat.div_mod_eq (length a - 3 + 3) 4).
      pose proof (Nat.div_mod_eq (S (length a) - 0 + 3) 4).
      pose proof (Nat.mod_upper_bound (length a - 3 + 3) 4).
      pose proof (Nat.mod_upper_bound (S (length a) - 0 + 3) 4).
      lia.
    + rewrite IH by lia. f_equal.
Qed.

Lemma Qceiling_quarter (n : nat) :
  Qceiling (Z.of_nat n # 4) = Z.of_nat ((n + 3) / 4).
Proof.
  unfold Qceiling, Qfloor. cbn [Qopp Qnum Qden].
  rewrite Nat2Z.inj_div, Nat2Z.inj_add.
  change (Z.of_nat 3) with 3%Z. change (Z.of_nat 4) with 4%Z.
  pose proof (Z.div_mod (- Z.of_nat n) 4).
  pose proof (Z.div_mod (Z.of_nat n + 3) 4).
  pose proof (Z.mod_pos_bound (- Z.of_nat n) 4).
  pose proof (Z.mod_pos_bound (Z.of_nat n + 3) 4).
  lia.
Qed.

(** The length of [a[::4]] is [ceil(len(a) / 4)]. *)
Lemma slice_step_4_length {A} (a : list A) :
  Z.of_nat (length (slice_step 4 a)) = Qceiling (Z.of_nat (length a) # 4).
Proof.
  unfold slice_step. rewrite slice_from_4_length by lia.
  rewrite Qceiling_quarter. f_equal. f_equal. lia.
Qed.

(** ** Rounding *)

Lemma round_half_even_comp x y : x == y -> round_half_even x = round_half_even y.
Proof.
  intros H. unfold round_half_even.
  rewrite (Qfloor_comp _ _ H).
  assert (Hc : (x - inject_Z (Qfloor y) ?= 1 # 2) = (y - inject_Z (Qfloor y) ?= 1 # 2))
    by now rewrite H.
  now rewrite Hc.
Qed.

Lemma inject_Z_succ z : inject_Z (z + 1) == inject_Z z + 1.
Proof. rewrite inject_Z_plus. reflexivity. Qed.

Lemma round_half_even_bounds x :
  inject_Z (round_half_even x) - (1 # 2) <= x <= inject_Z (round_half_even x) + (1 # 2).
Proof.
  unfold round_half_even.
  pose proof (Qfloor_le x) as Hlo. pose proof (Qlt_floor x) as Hhi.
  rewrite inject_Z_succ in Hhi.
  destruct (Qcompare_spec (x - inject_Z (Qfloor x)) (1 # 2)) as [He|Hl|Hg].
  - destruct (Z.even (Qfloor x)); [|rewrite inject_Z_succ];
      set (q := inject_Z (Qfloor x)) in *; lra.
  - set (q := inject_Z (Qfloor x)) in *; lra.
  - rewrite inject_Z_succ. set (q := inject_Z (Qfloor x)) in *; lra.
Qed.

Lemma round_half_even_mono x y : x <= y -> (round_half_even x <= round_half_even y)%Z.
Proof.
  intros Hxy.
  pose proof (Qfloor_resp_le _ _ Hxy) as Hf.
  destruct (Z.eq_dec (Qfloor x) (Qfloor y)) as [Heq|Hne].
  - unfold round_half_even. rewrite <- Heq.
    set (q := inject_Z (Qfloor x)).
    destruct (Qcompare_spec (x - q) (1 # 2)) as [He|Hl|Hg];
      destruct (Qcompare_spec (y - q) (1 # 2)) as [He'|Hl'|Hg'];
      try destruct (Z.even (Qfloor x)); try lia; exfalso; lra.
  - assert (Hlt : (Qfloor x + 1 <= Qfloor y)%Z) by lia.
    transitivity (Qfloor x + 1)%Z.
    + unfold round_half_even.
      destruct (Qcompare (x - inject_Z (Qfloor x)) (1 # 2));
        try destruct (Z.even (Qfloor x)); lia.
    + transitivity (Qfloor y); [exact Hlt|].
      unfold round_half_even.
      destruct (Qcompare (y - inject_Z (Qfloor y)) (1 # 2));
        try destruct (Z.even (Qfloor y)); lia.
Qed.

Lemma round_comp x y n : x == y -> round x n = round y n.
Proof.
  intros H. unfold round. f_equal. apply round_half_even_comp. now rewrite H.
Qed.

Lemma round_mono x y n : x <= y -> round x n <= round y n.
Proof.
  intros H. unfold round, Qle. simpl Qnum. simpl Qden.
  apply Z.mul_le_mono_nonneg_r; [lia|].
  apply round_half_even_mono.
  apply Qmult_le_compat_r; [exact H|]. unfold Qle; simpl; lia.
Qed.

(** Rounding moves a value by at most half a unit of the last place. *)
Lemma round_error x n :
  round x n - (1 # (2 * pow10 n)) <= x <= round x n + (1 # (2 * pow10 n)).
Proof.
  pose proof (round_half_even_bounds (x * inject_Z (Zpos (pow10 n)))) as [Hlo Hhi].
  unfold round.
  set (s := pow10 n) in *.
  remember (round_half_even (x * inject_Z (Zpos s))) as k eqn:Ek. clear Ek.
  assert (Hs : 0 < inject_Z (Zpos s)) by (unfold Qlt; simpl; lia).
  remember (/ inject_Z (Zpos s)) as inv eqn:Einv.
  assert (Hinv : 0 < inv) by (subst inv; now apply Qinv_lt_0_compat).
  assert (Hone : inject_Z (Zpos s) * inv == 1).
  { subst inv. apply Qmult_inv_r. intros Hz. rewrite Hz in Hs. now apply Qlt_irrefl in Hs. }
  assert (Hk : k # s == inject_Z k * inv).
  { subst inv. rewrite (Qmake_Qdiv k s). reflexivity. }
  assert (Hh : (1 # (2 * s)) == (1 # 2) * inv).
  { subst inv. unfold Qeq, Qinv, Qmult; simpl. lia. }
  rewrite Hk, Hh.
  remember (inject_Z (Zpos s)) as t eqn:Et. remember (inject_Z k) as q eqn:Eq.
  assert (Hx : x == x * t * inv) by (rewrite <- Qmult_assoc, Hone; ring).
  split; nra.
Qed.

(** A rounded confidence below the threshold comes from a raw confidence
    below the threshold: [0.5] is on every decimal grid. *)
Lemma round_below_half c n : (0 < n)%nat -> round c n < 1 # 2 -> c < 1 # 2.
Proof.
  intros Hn Hr. apply Qnot_le_lt. intros Hge.
  apply (round_mono _ _ n) in Hge.
  assert (Hhalf : round (1 # 2) n == 1 # 2).
  { destruct n as [|n]; [lia|].
    unfold round.
    assert (Hp : Zpos (pow10 (S n)) = (10 * 10 ^ Z.of_nat n)%Z).
    { unfold pow10. rewrite Z2Pos.id by lia.
      rewrite Nat2Z.inj_succ, Z.pow_succ_r by lia. reflexivity. }
    rewrite (round_half_even_comp _ (inject_Z (5 * 10 ^ Z.of_nat n))).
    - unfold round_half_even. rewrite Qfloor_Z.
      assert (Hz : inject_Z (5 * 10 ^ Z.of_nat n) - inject_Z (5 * 10 ^ Z.of_nat n) == 0) by ring.
      rewrite (Qcompare_comp _ _ Hz (1 # 2) (1 # 2) (Qeq_refl _)). simpl.
      unfold Qeq. simpl Qnum. simpl Qden. rewrite Hp. lia.
    - rewrite Hp. unfold Qeq, Qmult, inject_Z. simpl Qnum. simpl Qden. lia. }
  rewrite Hhalf in Hge. lra.
Qed.

End PyFacts.

Example round_examples :
  Py.round (1 # 3) 3 = (333 # 1000)%Q
  /\ Py.round (2 # 3) 3 = (667 # 1000)%Q
  /\ Py.round (6875 # 1000) 2 = (688 # 100)%Q
  /\ Py.round (125 # 1000) 2 = (12 # 100)%Q
  /\ Py.round (-(5 # 2)) 0 = (-2 # 1)%Q.
Proof. repeat split. Qed.

Example slice_examples :
  Py.slice_step 4 [0; 1; 2; 3; 4; 5; 6; 7; 8]%nat = [0; 4; 8]%nat
  /\ Py.slice_step 4 [0; 1; 2; 3]%nat = [0]%nat
  /\ Py.slice_step 4 (@nil nat) = [].
Proof. repeat split. Qed.

Example split_examples :
  Py.split "la la la" = ["la"; "la"; "la"]
  /\ Py.split "  two   words " = ["two"; "words"]
  /\ Py.split "   " = []
  /\ Py.strip "  hey you " = "hey you".
Proof. repeat split. Qed.

(** * Facts about the process monad *)

Module ProcFacts.
Import Py Proc.

Lemma bind_unfold {R C A B} (m : M R C A) (k : A -> M R C B) w :
  bind m k w = match m w with
               | (Return a, w') => k a w'
               | (Raise ex, w') => (Raise ex, w')
               | (SysExit c, w') => (SysExit c, w')
               end.
Proof. reflexivity. Qed.

Lemma climbs_sound (ps : list Z) :
  forall low, (0 <= low)%Z -> Progress.climbs low ps = true ->
    StronglySorted Z.le ps /\ Forall (fun p => (low <= p <= 100)%Z) ps.
Proof.
  induction ps as [|p ps IH]; intros low Hlow H; cbn in H.
  - split; constructor.
  - apply andb_prop in H as [H Hrest]. apply andb_prop in H as [Hlo Hhi].
    apply Z.leb_le in Hlo, Hhi.
    destruct (IH p ltac:(lia) Hrest) as [Hsorted Hall].
    split; constructor; auto; try lia.
    + eapply Forall_impl; [exact Hall|]. cbn. intros q Hq. lia.
    + eapply Forall_impl; [exact Hall|]. cbn. intros q Hq. lia.
Qed.

(** A stream passes when its percentages climb from 0 and it holds no
    JSON object. *)
Lemma well_formed_by_test {R} (ls : list (line R)) :
  Progress.climbs 0 (Progress.percents ls) = true ->
  payloads ls = [] ->
  Progress.well_formed ls.
Proof.
  intros Hc Hp. destruct (climbs_sound _ 0%Z ltac:(lia) Hc) as [Hs Ha].
  repeat split; assumption.
Qed.

End ProcFacts.

(** * The pitch runner *)

Module crepe_facts.
Import Py Proc Json Torch crepe_runner crepe_runs PyFacts ProcFacts.
#[local] Open Scope Q_scope.

#[local] Arguments time_array : simpl never.
#[local] Arguments valid_frames : simpl never.
#[local] Arguments voiced_percent_of : simpl never.
#[local] Arguments avg_confidence_of : simpl never.
#[local] Arguments gate : simpl never.
#[local] Arguments to_midi : simpl never.
#[local] Arguments build_pitch_data : simpl never.
#[local] Arguments build_result : simpl never.
#[local] Arguments truediv : simpl never.
#[local] Arguments as_int : simpl never.
#[local] Arguments truthy : simpl never.
#[local] Arguments Np.any : simpl never.
#[local] Arguments Z.eqb : simpl never.
#[local] Arguments Nat.ltb : simpl never.

(** The symbolic execution of [main] on a request object: one case
    distinction per step that can raise, in program order.  [failed]
    closes the branches that end in the [except] handler, [finish] the
    ones that reach the last [print]. *)
Ltac exec e fields failed finish :=
  unfold run, main; cbn;
  destruct (truthy (default JNull (fields !! "input"))) eqn:Hinput; cbn; [|failed];
  unfold try_except, body, detect_device;
  destruct (import_torch_ e) as [[]|?] eqn:Himport; cbn; [|failed];
  destruct (cuda_is_available (host e)) eqn:Hcuda; cbn;
    [destruct (cuda_get_device_name (host e)) as [name|?] eqn:Hname; cbn; [|failed]|];
  (destruct (sf_read_ e) as [audio|?] eqn:Hread; cbn; [|failed]);
  (destruct (truediv _ _) as [seconds|?] eqn:Hseconds; cbn; [|failed]);
  destruct (1 <? channels audio)%nat; cbn;
  destruct (samplerate audio =? 16000)%Z eqn:Hrate; cbn;
  try (destruct (resample_ e) as [[]|?] eqn:Hresample; cbn; [|failed]);
  (destruct (audio_to_ e) as [[]|?] eqn:Hto; cbn; [|failed]);
  (destruct (predict_ e) as [[raw_frequency raw_confidence]|?] eqn:Hpredict; cbn; [|failed]);
  (destruct (truediv (elapsed_time e) seconds) as [speed|?] eqn:Hspeed; cbn; [|failed]);
  (destruct (as_int _) as [hop|?] eqn:Hhop; cbn; [|failed]);
  (destruct (valid_frames _ _) as [valid|?] eqn:Hvalid; cbn; [|failed]);
  (destruct (avg_confidence_of _ _) as [avg|?] eqn:Havg; cbn; [|failed]);
  (destruct (gate _ _) as [gated|?] eqn:Hgate; cbn; [|failed]);
  destruct (Np.any _); cbn;
  destruct (truthy (default JNull (fields !! "output"))) eqn:Houtput; cbn;
  try (destruct (json_dump_ e) as [[]|?] eqn:Hdump; cbn; [|failed]);
  finish.

Lemma valid_frames_raises frequency confidence ex :
  valid_frames frequency confidence = Exn ex -> length frequency <> length confidence.
Proof.
  unfold valid_frames, Np.broadcast. rewrite !length_map.
  destruct (length frequency =? length confidence)%nat eqn:Hlen; [discriminate|].
  intros _. now apply Nat.eqb_neq.
Qed.

Lemma valid_frames_length frequency confidence valid :
  valid_frames frequency confidence = Ok valid ->
  length frequency = length confidence -> length valid = length confidence.
Proof.
  unfold valid_frames, Np.broadcast. rewrite !length_map. intros H Hlen.
  rewrite Hlen, Nat.eqb_refl in H. injection H as <-.
  rewrite length_zip_with, !length_map. lia.
Qed.

Lemma avg_confidence_raises frequency confidence valid ex :
  valid_frames frequency confidence = Ok valid ->
  avg_confidence_of confidence valid = Exn ex ->
  length frequency <> length confidence.
Proof.
  intros Hv Ha Hlen. apply valid_frames_length in Hv; [|exact Hlen].
  unfold avg_confidence_of, Np.bool_index in Ha.
  rewrite Hv, Nat.eqb_refl in Ha. destruct (Np.any valid); discriminate.
Qed.

Lemma gate_raises frequency confidence ex :
  gate frequency confidence = Exn ex -> length frequency <> length confidence.
Proof.
  unfold gate, Np.mask_assign. rewrite length_map.
  destruct (length frequency =? length confidence)%nat eqn:Hlen; [discriminate|].
  intros _. now apply Nat.eqb_neq.
Qed.

(** Names the step an error branch of the execution stopped at. *)
Ltac stopped :=
  first
    [ eapply missing_input; eassumption
    | eapply import_raises; eassumption
    | eapply device_name_raises; eassumption
    | eapply read_raises; eassumption
    | eapply zero_sample_rate; eassumption
    | eapply resample_raises; eassumption
    | eapply audio_to_raises; eassumption
    | eapply predict_raises; eassumption
    | eapply zero_duration; eassumption
    | eapply hop_length_not_a_number; eassumption
    | eapply shapes_differ;
      [ eassumption
      | first [ eapply valid_frames_raises; eassumption
              | eapply avg_confidence_raises; eassumption
              | eapply gate_raises; eassumption ] ]
    | eapply dump_raises; eassumption ].

(** Every run of [main] succeeds, fails or crashes; it fails on a request
    object only where a step is blocked, and it crashes only on a request
    that is not a JSON object. *)
Lemma pitch_outcome e argv :
  let x := run (main e argv) in
  succeeds e argv x
  \/ (fails x
      /\ forall fields, argv = Some (Parsed (JObject fields)) -> blocked e fields)
  \/ (crashes x /\ exists v, argv = Some (Parsed (JOther v))).
Proof.
  destruct argv as [[why|[fields|v]]|]; cbn.
  - right; left. split; [eexists _, _; repeat split; reflexivity|discriminate].
  - exec e fields
      ltac:(right; left;
            split; [eexists _, _; repeat split; reflexivity
                   |intros ? [= <-]; stopped])
      ltac:(left;
            eapply (Succeeds _ _ _ fields audio raw_frequency raw_confidence seconds
                      speed hop valid avg gated);
            try eassumption; try reflexivity;
            try (intros; unfold output_of in *; solve [eauto | congruence]);
            cbv zeta; cbn [final stdout calls];
            unfold input_of, output_of, hop_length_of, model_of;
            rewrite ?Hcuda, ?Houtput, ?Hrate;
            try (apply Z.eqb_eq in Hrate; rewrite Hrate);
            split; reflexivity).
  - right; right. split; [repeat split; reflexivity|eauto].
  - right; left. split; [eexists _, _; repeat split; reflexivity|discriminate].
Qed.

(** Whatever the run does, the estimator is only ever handed the device
    that [detect_device] selected. *)
Lemma main_inference_device (e : env) (argv : option argument) :
  Forall (fun d => d = if cuda_is_available (host e) then cuda else cpu)
         (inference_devices (run (main e argv))).
Proof.
  unfold inference_devices.
  destruct argv as [[why|[fields|v]]|]; cbn; try constructor.
  exec e fields
    ltac:(cbn; rewrite ?Hcuda; repeat constructor)
    ltac:(cbn; rewrite ?Hcuda; repeat constructor).
Qed.

(** ** What a successful run has printed and saved *)

Lemma succeeds_results e argv x :
  succeeds e argv x -> exists r, results_of x = [r].
Proof.
  intros [? ? ? ? ? ? ? ? ? ? _ _ _ _ _ _ _ _ _ _ _ [Hout _]].
  unfold results_of. rewrite Hout. cbn. eauto.
Qed.

Lemma not_succeeds_results (x : exited) :
  fails x \/ crashes x ->
  results_of x = [] /\ status x = 1%Z /\ saved_of x = [].
Proof.
  unfold results_of.
  intros [(err & tb & Hout & Hst & Hs)|(Hout & Hst & Hs)]; rewrite Hout; auto.
Qed.

(** ** The arrays of the body *)

Lemma lookup_map {A B} (f : A -> B) (l : list A) (i : nat) :
  map f l !! i = f <$> l !! i.
Proof. exact (list_lookup_fmap f l i). Qed.

Lemma gate_inv frequency confidence gated :
  gate frequency confidence = Ok gated ->
  length frequency = length confidence
  /\ gated = zip_with (fun f c => if Qltb c (1 # 2) then 0 else f) frequency confidence.
Proof.
  unfold gate, Np.mask_assign. rewrite length_map.
  destruct (length frequency =? length confidence)%nat eqn:Hlen; [|discriminate].
  apply Nat.eqb_eq in Hlen. intros [= <-]. split; [exact Hlen|].
  change (map ?f ?l) with (f <$> l). now rewrite zip_with_fmap_r.
Qed.

(** Frame [i] of the gated frequencies, from frame [i] of the raw output. *)
Lemma gate_lookup frequency confidence gated i c :
  gate frequency confidence = Ok gated ->
  confidence !! i = Some c ->
  exists f, frequency !! i = Some f
            /\ gated !! i = Some (if Qltb c (1 # 2) then 0 else f).
Proof.
  intros Hg Hc. apply gate_inv in Hg as [Hlen ->].
  destruct (lookup_lt_is_Some_2 frequency i) as [f Hf].
  { rewrite Hlen. apply lookup_lt_is_Some_1. eauto. }
  exists f. split; [exact Hf|].
  rewrite lookup_zip_with, Hf. cbn. now rewrite Hc.
Qed.

Lemma gate_length frequency confidence gated :
  gate frequency confidence = Ok gated -> length gated = length frequency.
Proof.
  intros Hg. apply gate_inv in Hg as [Hlen ->].
  rewrite length_zip_with. lia.
Qed.

Lemma time_array_length n hop sr : length (time_array n hop sr) = n.
Proof. unfold time_array, Np.arange. now rewrite !length_map, length_seq. Qed.

Lemma to_midi_length log2 frequency : length (to_midi log2 frequency) = length frequency.
Proof. unfold to_midi. now rewrite length_map. Qed.

(** ** Where a [pitch_data] object comes from *)

Lemma pitch_data_inv (e : env) (argv : option argument) (data : pitch_data) :
  In data (pitch_data_of (run (main e argv))) ->
  exists fields raw_frequency raw_confidence hop gated,
    argv = Some (Parsed (JObject fields))
    /\ predict_ e = Ok (raw_frequency, raw_confidence)
    /\ as_int (hop_length_of fields) = Ok hop
    /\ gate raw_frequency raw_confidence = Ok gated
    /\ data = build_pitch_data (time_array (length raw_frequency) hop 16000) gated
                (to_midi (np_log2 e) gated) raw_confidence 16000 hop (model_of fields).
Proof.
  intros Hin.
  destruct (pitch_outcome e argv) as [Hs|Hf].
  - destruct Hs as [fields audio rf rc seconds speed hop valid avg gated
                      Hargv _ _ _ Hpredict _ Hhop _ _ Hgate _ Hout].
    cbv zeta in Hout. destruct Hout as [Hout Hcalls].
    exists fields, rf, rc, hop, gated. repeat split; try assumption.
    unfold pitch_data_of, results_of, saved_of in Hin.
    rewrite Hout, Hcalls in Hin. unfold build_result in Hin.
    destruct (samplerate audio =? 16000)%Z, (truthy (output_of fields));
      cbn in Hin; intuition congruence.
  - assert (Hf' : fails (run (main e argv)) \/ crashes (run (main e argv)))
      by (destruct Hf as [[? _]|[? _]]; auto).
    apply not_succeeds_results in Hf' as (Hres & _ & Hsaved).
    unfold pitch_data_of in Hin. rewrite Hres, Hsaved in Hin. destruct Hin.
Qed.

Lemma pitch_result_inv (e : env) (argv : option argument) (r : result) :
  In r (results_of (run (main e argv))) ->
  exists fields raw_frequency raw_confidence hop valid avg gated,
    argv = Some (Parsed (JObject fields))
    /\ predict_ e = Ok (raw_frequency, raw_confidence)
    /\ as_int (hop_length_of fields) = Ok hop
    /\ valid_frames raw_frequency raw_confidence = Ok valid
    /\ avg_confidence_of raw_confidence valid = Ok avg
    /\ gate raw_frequency raw_confidence = Ok gated
    /\ status (run (main e argv)) = 0%Z
    /\ r = build_result (time_array (length raw_frequency) hop 16000)
             (if cuda_is_available (host e) then cuda else cpu)
             (voiced_percent_of valid raw_frequency) avg
             (build_pitch_data (time_array (length raw_frequency) hop 16000) gated
                (to_midi (np_log2 e) gated) raw_confidence 16000 hop (model_of fields))
             (output_of fields).
Proof.
  intros Hin.
  destruct (pitch_outcome e argv) as [Hs|Hf].
  - destruct Hs as [fields audio rf rc seconds speed hop valid avg gated
                      Hargv _ _ _ Hpredict _ Hhop Hvalid Havg Hgate Hstatus Hout].
    cbv zeta in Hout. destruct Hout as [Hout _].
    exists fields, rf, rc, hop, valid, avg, gated. repeat split; try assumption.
    unfold results_of in Hin. rewrite Hout in Hin. cbn in Hin.
    intuition congruence.
  - assert (Hf' : fails (run (main e argv)) \/ crashes (run (main e argv)))
      by (destruct Hf as [[? _]|[? _]]; auto).
    apply not_succeeds_results in Hf' as (Hres & _ & _).
    rewrite Hres in Hin. destruct Hin.
Qed.

(** ** Series lengths *)

(** C7.  In every pitch result the four series [time], [frequency],
    [midi] and [confidence] have the same length, and that length is
    [ceil(rawFrameCount / 4)], where [rawFrameCount] is the number of
    frames the estimator returned: every fourth frame is kept. *)
Theorem C7_series_lengths (e : env) (argv : option argument) (data : pitch_data) :
  In data (pitch_data_of (run (main e argv))) ->
  exists raw_frequency raw_confidence,
    predict_ e = Ok (raw_frequency, raw_confidence)
    /\ Z.of_nat (length (time data)) = Qceiling (Z.of_nat (length raw_frequency) # 4)
    /\ length (frequency data) = length (time data)
    /\ length (midi data) = length (time data)
    /\ length (confidence data) = length (time data).
Proof.
  intros Hin.
  apply pitch_data_inv in Hin
    as (fields & rf & rc & hop & gated & _ & Hpredict & _ & Hgate & ->).
  exists rf, rc. split; [exact Hpredict|].
  pose proof (gate_length _ _ _ Hgate) as Hlen.
  apply gate_inv in Hgate as [Hrc _].
  unfold build_pitch_data, downsample_factor; cbn [time frequency midi confidence].
  rewrite !length_map.
  assert (Hl : forall (a : list Q),
             length (slice_step 4 a) = ((length a + 3) / 4)%nat).
  { intros a. unfold slice_step. rewrite slice_from_4_length by lia.
    f_equal. lia. }
  rewrite !Hl, to_midi_length, time_array_length, Hlen, <- Hrc.
  repeat split; try reflexivity.
  rewrite <- Qceiling_quarter. reflexivity.
Qed.

(** C7 on the nine-frame example: three points are kept. *)
Lemma C7_series_lengths_witness :
  exists data,
    In data (pitch_data_of (run (main crepe_examples.nine_frames crepe_examples.request)))
    /\ Z.of_nat (length (time data)) = 3%Z
    /\ length (frequency data) = length (time data).
Proof.
  assert (Hin : In (hd_pitch_data crepe_examples.nine_frames crepe_examples.request)
                   (pitch_data_of (run (main crepe_examples.nine_frames
                                          crepe_examples.request))))
    by (vm_compute; left; reflexivity).
  eexists. split; [exact Hin|].
  destruct (C7_series_lengths _ _ _ Hin) as (rf & rc & Hp & Ht & Hf & _).
  split; [|exact Hf].
  rewrite Ht. injection Hp as <- _. reflexivity.
Defined.

(** ** Reading the output series back to the raw frames *)

Lemma frequency_lookup time gated midi conf sr hop m j :
  frequency (build_pitch_data time gated midi conf sr hop m) !! j
  = (fun f => if Qltb 0 f then round f 2 else 0) <$> gated !! (4 * j)%nat.
Proof.
  unfold build_pitch_data, downsample_factor. cbn [frequency].
  rewrite lookup_map, slice_step_lookup by lia. now rewrite Nat.mul_comm.
Qed.

Lemma midi_lookup time gated midi conf sr hop m j :
  crepe_runner.midi (build_pitch_data time gated midi conf sr hop m) !! j
  = (fun x => if Qltb 0 x then round x 2 else 0) <$> midi !! (4 * j)%nat.
Proof.
  unfold build_pitch_data, downsample_factor. cbn [crepe_runner.midi].
  rewrite lookup_map, slice_step_lookup by lia. now rewrite Nat.mul_comm.
Qed.

Lemma confidence_lookup time gated midi conf sr hop m j :
  confidence (build_pitch_data time gated midi conf sr hop m) !! j
  = (fun c => round c 3) <$> conf !! (4 * j)%nat.
Proof.
  unfold build_pitch_data, downsample_factor. cbn [confidence].
  rewrite lookup_map, slice_step_lookup by lia. now rewrite Nat.mul_comm.
Qed.

Lemma to_midi_lookup log2 gated i :
  to_midi log2 gated !! i
  = (fun f => if Qltb 0 f then 69 + 12 * log2 (f / 440) else 0) <$> gated !! i.
Proof. unfold to_midi. apply lookup_map. Qed.

Lemma Qltb_irrefl x : Qltb x x = false.
Proof. apply Qltb_ge. apply Qle_refl. Qed.

(** ** The device *)

(** C1, as the code has it.  The pitch runner never selects the vendor
    accelerator: the device is CUDA when CUDA is available and the CPU
    otherwise, whatever [mps_is_available] says.  That device is the one
    handed to the estimator and the one reported in the result. *)
Theorem C1_device_is_cuda_or_cpu (e : env) (argv : option argument) :
  let x := run (main e argv) in
  let d := if cuda_is_available (host e) then cuda else cpu in
  d <> mps
  /\ Forall (fun used => used = d) (inference_devices x)
  /\ Forall (fun r => device r = d) (results_of x).
Proof.
  cbv zeta. split; [destruct (cuda_is_available (host e)); discriminate|].
  split; [apply main_inference_device|].
  apply List.Forall_forall. intros r Hin.
  apply pitch_result_inv in Hin
    as (fields & rf & rc & hop & valid & avg & gated & _ & _ & _ & _ & _ & _ & _ & ->).
  reflexivity.
Qed.

(** C1 as stated fails: on a host with CUDA the pitch job runs the
    estimator on CUDA and reports [cuda], not the CPU. *)
Lemma C1_counterexample :
  exists r,
    results_of (run (main (crepe_examples.studio crepe_examples.workstation
                             crepe_examples.nine_frequencies
                             crepe_examples.nine_confidences)
                          crepe_examples.request)) = [r]
    /\ device r = cuda
    /\ device r <> cpu
    /\ inference_devices
         (run (main (crepe_examples.studio crepe_examples.workstation
                       crepe_examples.nine_frequencies
                       crepe_examples.nine_confidences)
                    crepe_examples.request)) = [cuda].
Proof.
  eexists. split; [vm_compute; reflexivity|].
  split; [reflexivity|]. split; [discriminate|]. vm_compute. reflexivity.
Qed.

(** ** Confidence gating *)

(** C3, as the code has it.  In every pitch result and at every index
    [j] of the output series, the reported confidence is the estimator's
    confidence of raw frame [4 j] rounded to three decimals, never gated;
    and where it is below 0.5 the reported frequency and midi are 0. *)
Theorem C3_low_confidence_is_zeroed (e : env) (argv : option argument)
    (data : pitch_data) :
  In data (pitch_data_of (run (main e argv))) ->
  exists raw_frequency raw_confidence,
    predict_ e = Ok (raw_frequency, raw_confidence)
    /\ forall j c,
         confidence data !! j = Some c ->
         (exists raw, raw_confidence !! (4 * j)%nat = Some raw /\ c = round raw 3)
         /\ (c < 1 # 2 -> frequency data !! j = Some 0 /\ midi data !! j = Some 0).
Proof.
  intros Hin.
  apply pitch_data_inv in Hin
    as (fields & rf & rc & hop & gated & _ & Hpredict & _ & Hgate & ->).
  exists rf, rc. split; [exact Hpredict|].
  intros j c Hc. rewrite confidence_lookup in Hc.
  apply fmap_Some in Hc as (raw & Hraw & ->).
  split; [eauto|]. intros Hlow.
  apply round_below_half in Hlow; [|lia].
  destruct (gate_lookup _ _ _ _ _ Hgate Hraw) as (f & _ & Hg).
  apply Qltb_lt in Hlow. rewrite Hlow in Hg.
  rewrite frequency_lookup, midi_lookup, to_midi_lookup, Hg. cbn.
  now rewrite !Qltb_irrefl.
Qed.

(** C3 on the nine-frame example: the second kept frame (raw frame 4,
    confidence 0.3) is reported with frequency 0. *)
Lemma C3_low_confidence_is_zeroed_witness :
  In (hd_pitch_data crepe_examples.nine_frames crepe_examples.request)
     (pitch_data_of (run (main crepe_examples.nine_frames crepe_examples.request)))
  /\ confidence (hd_pitch_data crepe_examples.nine_frames crepe_examples.request)
       !! 1%nat = Some (300 # 1000)
  /\ frequency (hd_pitch_data crepe_examples.nine_frames crepe_examples.request)
       !! 1%nat = Some 0.
Proof.
  assert (Hin : In (hd_pitch_data crepe_examples.nine_frames crepe_examples.request)
                   (pitch_data_of (run (main crepe_examples.nine_frames
                                          crepe_examples.request))))
    by (vm_compute; left; reflexivity).
  assert (Hc : confidence (hd_pitch_data crepe_examples.nine_frames crepe_examples.request)
                 !! 1%nat = Some (300 # 1000)) by (vm_compute; reflexivity).
  split; [exact Hin|]. split; [exact Hc|].
  destruct (C3_low_confidence_is_zeroed _ _ _ Hin) as (rf & rc & _ & H).
  destruct (H 1%nat _ Hc) as [_ Hz].
  apply Hz. reflexivity.
Defined.

(** C3 as stated fails in its last clause: the reported confidence is
    not the model's value but its rounding to three decimals (raw frame
    8 has confidence 0.12345 and is reported as 0.123). *)
Lemma C3_counterexample :
  crepe_examples.nine_confidences !! 8%nat = Some (12345 # 100000)
  /\ confidence (hd_pitch_data crepe_examples.nine_frames crepe_examples.request)
       !! 2%nat = Some (123 # 1000)
  /\ ~ (123 # 1000 == 12345 # 100000).
Proof.
  split; [reflexivity|]. split; [vm_compute; reflexivity|].
  intros H. vm_compute in H. discriminate.
Qed.

(** ** Pitch numbers *)

(** C8, as the code has it.  For every output frame whose reported
    frequency is positive, the reported frequency is the raw frequency
    [f] of frame [4 j] rounded to two decimals, and the reported midi is
    [round(69 + 12 log2(f / 440), 2)] when that pitch number is positive
    and 0 otherwise. *)
Theorem C8_midi_of_voiced_frames (e : env) (argv : option argument)
    (data : pitch_data) :
  In data (pitch_data_of (run (main e argv))) ->
  exists raw_frequency raw_confidence,
    predict_ e = Ok (raw_frequency, raw_confidence)
    /\ forall j reported,
         frequency data !! j = Some reported ->
         0 < reported ->
         exists f,
           raw_frequency !! (4 * j)%nat = Some f
           /\ 0 < f
           /\ reported = round f 2
           /\ midi data !! j =
                Some (let m := 69 + 12 * np_log2 e (f / 440) in
                      if Qltb 0 m then round m 2 else 0).
Proof.
  intros Hin.
  apply pitch_data_inv in Hin
    as (fields & rf & rc & hop & gated & _ & Hpredict & _ & Hgate & ->).
  exists rf, rc. split; [exact Hpredict|].
  intros j reported Hf Hpos. rewrite frequency_lookup in Hf.
  apply fmap_Some in Hf as (g & Hg & ->).
  destruct (Qltb 0 g) eqn:Hg0; [|now apply Qlt_irrefl in Hpos].
  pose proof (gate_inv _ _ _ Hgate) as [Hlen Hgated].
  rewrite midi_lookup, to_midi_lookup.
  rewrite Hgated, lookup_zip_with in Hg. rewrite Hgated, lookup_zip_with.
  destruct (rf !! (4 * j)%nat) as [f|] eqn:Hraw; [|discriminate].
  destruct (rc !! (4 * j)%nat) as [c|] eqn:Hc; [|discriminate].
  cbn in Hg. cbn. injection Hg as Hg.
  destruct (Qltb c (1 # 2)) eqn:Hc'; [subst g; now rewrite Qltb_irrefl in Hg0|].
  subst g. exists f. split; [reflexivity|].
  split; [now apply Qltb_lt|]. split; [reflexivity|].
  now rewrite Hg0.
Qed.

(** C8 on the nine-frame example: the first kept frame is 440 Hz, midi
    69. *)
Lemma C8_midi_of_voiced_frames_witness :
  In (hd_pitch_data crepe_examples.nine_frames crepe_examples.request)
     (pitch_data_of (run (main crepe_examples.nine_frames crepe_examples.request)))
  /\ frequency (hd_pitch_data crepe_examples.nine_frames crepe_examples.request)
       !! 0%nat = Some (44000 # 100)
  /\ 0 < 44000 # 100
  /\ midi (hd_pitch_data crepe_examples.nine_frames crepe_examples.request)
       !! 0%nat = Some (6900 # 100).
Proof.
  assert (Hin : In (hd_pitch_data crepe_examples.nine_frames crepe_examples.request)
                   (pitch_data_of (run (main crepe_examples.nine_frames
                                          crepe_examples.request))))
    by (vm_compute; left; reflexivity).
  assert (Hf : frequency (hd_pitch_data crepe_examples.nine_frames crepe_examples.request)
                 !! 0%nat = Some (44000 # 100)) by (vm_compute; reflexivity).
  assert (Hpos : 0 < 44000 # 100) by reflexivity.
  split; [exact Hin|]. split; [exact Hf|]. split; [exact Hpos|].
  destruct (C8_midi_of_voiced_frames _ _ _ Hin) as (rf & rc & Hp & H).
  destruct (H 0%nat _ Hf Hpos) as (f & Hraw & _ & _ & Hm).
  injection Hp as <- _. injection Hraw as <-.
  rewrite Hm. vm_compute. reflexivity.
Defined.

(** C8 as stated fails below MIDI 0: a voiced frame at 6.875 Hz (440 Hz
    six octaves down, pitch number -3) is reported with frequency 6.88
    and midi 0, not -3. *)
Lemma C8_counterexample :
  exists data,
    pitch_data_of (run (main (crepe_examples.studio crepe_examples.laptop
                                [6875 # 1000] [9 # 10])
                             crepe_examples.request)) = [data]
    /\ frequency data = [688 # 100]
    /\ midi data = [0]
    /\ crepe_examples.log2_chord ((6875 # 1000) / 440) = -6 # 1
    /\ round (69 + 12 * crepe_examples.log2_chord ((6875 # 1000) / 440)) 2 = -300 # 100
    /\ ~ (0 == -300 # 100).
Proof.
  eexists. split; [vm_compute; reflexivity|].
  repeat split; try (vm_compute; reflexivity).
  intros H. vm_compute in H. discriminate.
Qed.

(** ** Metadata *)

(** C10.  In every pitch result, printed or saved, [sample_rate] is
    16000 and [hop_length] is four times the request's hop length, which
    is 512 when the request gives none. *)
Theorem C10_metadata (e : env) (argv : option argument) (data : pitch_data) :
  In data (pitch_data_of (run (main e argv))) ->
  sample_rate data = 16000%Z
  /\ exists fields hop,
       argv = Some (Parsed (JObject fields))
       /\ as_int (hop_length_of fields) = Ok hop
       /\ hop_length data = (4 * hop)%Z
       /\ (fields !! "hop_length" = None -> hop_length data = 2048%Z).
Proof.
  intros Hin.
  apply pitch_data_inv in Hin
    as (fields & rf & rc & hop & gated & Hargv & _ & Hhop & _ & ->).
  split; [reflexivity|]. exists fields, hop.
  split; [exact Hargv|]. split; [exact Hhop|].
  unfold build_pitch_data, downsample_factor. cbn [hop_length].
  split; [lia|]. intros Hnone.
  unfold hop_length_of in Hhop. rewrite Hnone in Hhop. cbn in Hhop.
  injection Hhop as <-. reflexivity.
Qed.

(** C10 on the nine-frame example, saved to a file with the default hop
    length. *)
Lemma C10_metadata_witness :
  In (hd_pitch_data crepe_examples.nine_frames crepe_examples.request_to_file)
     (pitch_data_of (run (main crepe_examples.nine_frames crepe_examples.request_to_file)))
  /\ sample_rate (hd_pitch_data crepe_examples.nine_frames crepe_examples.request_to_file)
     = 16000%Z.
Proof.
  assert (Hin : In (hd_pitch_data crepe_examples.nine_frames crepe_examples.request_to_file)
                   (pitch_data_of (run (main crepe_examples.nine_frames
                                          crepe_examples.request_to_file))))
    by (vm_compute; left; reflexivity).
  split; [exact Hin|].
  exact (proj1 (C10_metadata _ _ _ Hin)).
Defined.

(** ** Statistics *)

Lemma count_true_cons b mask :
  Np.count_true (b :: mask) = ((if b then 1 else 0) + Np.count_true mask)%nat.
Proof.
  unfold Np.count_true. rewrite filter_cons.
  destruct b; destruct (decide _) as [H|H]; try reflexivity; congruence.
Qed.

(** On arrays of one shape the mask of line 113 counts the voiced frames. *)
Lemma valid_frames_count frequency confidence valid :
  valid_frames frequency confidence = Ok valid ->
  length frequency = length confidence ->
  Np.count_true valid = count_voiced frequency confidence
  /\ (Np.any valid = false <-> count_voiced frequency confidence = 0%nat).
Proof.
  unfold valid_frames, Np.broadcast. rewrite !length_map. intros H Hlen.
  rewrite Hlen, Nat.eqb_refl in H. injection H as <-.
  clear Hlen. revert confidence.
  induction frequency as [|f fs IH]; intros [|c cs];
    cbn [map zip_with count_voiced]; try (split; [reflexivity|tauto]).
  destruct (IH cs) as [IH1 IH2].
  rewrite count_true_cons, IH1. unfold voiced, Np.any in *.
  cbn [existsb id]. split; [reflexivity|].
  destruct (Qltb 0 f && Qltb (1 # 2) c); cbn [orb]; [split; [discriminate|lia]|exact IH2].
Qed.

(** C9, as the code has it.  The reported [voiced_percent] is
    [100 * count / total] rounded to one decimal, where [count] is the
    number of raw frames with [frequency > 0] and [confidence > 0.5] and
    [total] the number of raw frames, both taken before gating and before
    downsampling; with no frame at all it is NaN. *)
Theorem C9_voiced_percent (e : env) (argv : option argument) (r : result) :
  In r (results_of (run (main e argv))) ->
  exists raw_frequency raw_confidence,
    predict_ e = Ok (raw_frequency, raw_confidence)
    /\ voiced_percent r =
         match length raw_frequency with
         | O => None
         | S _ =>
             Some (round (100 * inject_Z (Z.of_nat (count_voiced raw_frequency raw_confidence))
                          / inject_Z (Z.of_nat (length raw_frequency))) 1)
         end.
Proof.
  intros Hin.
  apply pitch_result_inv in Hin
    as (fields & rf & rc & hop & valid & avg & gated
        & _ & Hpredict & _ & Hvalid & _ & Hgate & _ & ->).
  exists rf, rc. split; [exact Hpredict|].
  apply gate_inv in Hgate as [Hlen _].
  destruct (valid_frames_count _ _ _ Hvalid Hlen) as [Hcount _].
  unfold build_result, voiced_percent_of, Np.count_ratio. cbn [voiced_percent].
  rewrite Hcount.
  destruct rf as [|f rf]; [reflexivity|].
  cbn [length Nat.eqb option_map]. f_equal.
  apply round_comp. unfold Qdiv. ring.
Qed.

(** C9 on the nine-frame example: seven voiced frames of nine, 77.8. *)
Lemma C9_voiced_percent_witness :
  exists r,
    In r (results_of (run (main crepe_examples.nine_frames crepe_examples.request)))
    /\ voiced_percent r = Some (778 # 10).
Proof.
  assert (Hin : In (hd (Result 0 0 cpu None 0 None JNull)
                       (results_of (run (main crepe_examples.nine_frames
                                              crepe_examples.request))))
                   (results_of (run (main crepe_examples.nine_frames
                                          crepe_examples.request))))
    by (vm_compute; left; reflexivity).
  eexists. split; [exact Hin|].
  destruct (C9_voiced_percent _ _ _ Hin) as (rf & rc & Hp & Hv).
  injection Hp as <- <-. rewrite Hv. vm_compute. reflexivity.
Defined.

(** C9 as stated fails: the reported value is rounded.  Seven voiced
    frames of nine are reported as 77.8, which is not 700/9. *)
Lemma C9_counterexample :
  exists r,
    results_of (run (main crepe_examples.nine_frames crepe_examples.request)) = [r]
    /\ count_voiced crepe_examples.nine_frequencies crepe_examples.nine_confidences = 7%nat
    /\ voiced_percent r = Some (778 # 10)
    /\ ~ (778 # 10 == 100 * 7 / 9).
Proof.
  eexists. split; [vm_compute; reflexivity|].
  split; [reflexivity|]. split; [reflexivity|].
  intros H. vm_compute in H. discriminate.
Qed.

(** ** Unvoiced input *)







(** An input file with no samples never yields a pitch result: the
    timing line divides by the duration. *)
Lemma zero_duration_fails (e : env) (fields : gmap string jval) (audio : sound) :
  sf_read_ e = Ok audio ->
  samples audio = 0%nat ->
  fails (run (main e (Some (Parsed (JObject fields))))).
Proof.
  intros Hread Hzero.
  destruct (pitch_outcome e (Some (Parsed (JObject fields)))) as [Hs|[[Hf _]|[_ [v Hv]]]];
    [exfalso|exact Hf|discriminate].
  destruct Hs as [fields' audio' rf rc seconds speed hop valid avg gated
                    _ _ Hread' Hseconds _ Hspeed _ _ _ _ _ _].
  rewrite Hread in Hread'. injection Hread' as <-.
  rewrite Hzero in Hseconds. unfold truediv in Hseconds, Hspeed.
  destruct (Qeq_bool (inject_Z (samplerate audio)) 0); [discriminate|].
  injection Hseconds as <-.
  assert (Hz : Qeq_bool (inject_Z (Z.of_nat 0) / inject_Z (samplerate audio)) 0 = true).
  { apply Qeq_eq_bool. unfold Qdiv. cbn [Z.of_nat inject_Z]. ring. }
  rewrite Hz in Hspeed. discriminate.
Qed.

Example empty_file_is_an_error :
  payloads (stdout (final (run (main crepe_examples.empty_file crepe_examples.request))))
  = [Failure "float division by zero" (Some ZeroDivisionError)]
  /\ status (run (main crepe_examples.empty_file crepe_examples.request)) = 1%Z.
Proof. split; vm_compute; reflexivity. Qed.

(** ** The result channel of the pitch job *)


(** X3.  Input errors fail fast: a missing argument, an argument that is
    not JSON, and a request object whose [input] is absent or false each
    print one error object without traceback and exit with status 1,
    before any library is imported or called and before any progress
    line. *)
Theorem pitch_input_errors (e : env) :
  run (main e None)
  = Exited 1 (World [Json (Failure "Missing arguments" None)] [] Stdout [])
  /\ (forall why,
        run (main e (Some (Malformed why)))
        = Exited 1 (World [Json (Failure ("Invalid JSON arguments: " ++ why) None)]
                          [] Stdout []))
  /\ (forall fields,
        truthy (input_of fields) = false ->
        run (main e (Some (Parsed (JObject fields))))
        = Exited 1 (World [Json (Failure "Missing input path" None)] [] Stdout [])).
Proof.
  split; [reflexivity|]. split; [reflexivity|].
  intros fields Hin. unfold run, main, input_of in *. cbn.
  unfold get, get_default. cbn. rewrite Hin. reflexivity.
Qed.

(** ** Success and failure *)



(** ** Where the series goes *)

(** X5.  A successful pitch job puts the series in exactly one place.
    With a true [output] the series is saved once, to that path, and the
    printed result carries [pitch_data: null]; without it nothing is
    saved and the printed result carries the series.  Either way
    [output_file] repeats the request's [output], and [num_frames] is the
    length of the series. *)
Theorem pitch_series_goes_to_one_place (e : env) (argv : option argument) (r : result) :
  In r (results_of (run (main e argv))) ->
  exists fields data,
    argv = Some (Parsed (JObject fields))
    /\ pitch_data_of (run (main e argv)) = [data]
    /\ output_file r = output_of fields
    /\ num_frames r = length (time data)
    /\ (if truthy (output_of fields)
        then pitch_data_field r = None
             /\ saved_of (run (main e argv)) = [data]
             /\ In (json_dump (output_of fields) data, true)
                   (calls (final (run (main e argv))))
        else pitch_data_field r = Some data
             /\ saved_of (run (main e argv)) = []).
Proof.
  intros Hin. unfold results_of in Hin.
  destruct (pitch_outcome e argv) as [Hs|[[Hf _]|[Hc _]]].
  - destruct Hs as [fields audio rf rc seconds speed hop valid avg gated
                      Hargv _ _ _ _ _ _ _ _ _ _ Hout].
    cbv zeta in Hout. destruct Hout as [Hout Hcalls].
    rewrite Hout in Hin. cbn in Hin. destruct Hin as [<-|[]].
    exists fields. eexists. split; [exact Hargv|].
    unfold pitch_data_of, results_of, saved_of. rewrite Hout, Hcalls.
    unfold build_result. cbn [output_file num_frames pitch_data_field].
    destruct (samplerate audio =? 16000)%Z, (truthy (output_of fields)); cbn.
    all: repeat split; try reflexivity.
    all: try (unfold build_pitch_data; cbn [time]; now rewrite length_map).
    all: auto 10.
  - destruct Hf as (err & tb & Hout & _). rewrite Hout in Hin. destruct Hin.
  - destruct Hc as [Hout _]. rewrite Hout in Hin. destruct Hin.
Qed.

Lemma pitch_series_goes_to_one_place_witness :
  exists r data,
    In r (results_of (run (main crepe_examples.nine_frames crepe_examples.request_to_file)))
    /\ pitch_data_field r = None
    /\ saved_of (run (main crepe_examples.nine_frames crepe_examples.request_to_file))
       = [data]
    /\ num_frames r = 3%nat.
Proof.
  pose (r := hd (Result 0 0 cpu None 0 None JNull)
                (results_of (run (main crepe_examples.nine_frames
                                       crepe_examples.request_to_file)))).
  assert (Hin : In r (results_of (run (main crepe_examples.nine_frames
                                            crepe_examples.request_to_file))))
    by (vm_compute; left; reflexivity).
  destruct (pitch_series_goes_to_one_place _ _ _ Hin)
    as (fields & data & Hargv & _ & _ & _ & H).
  injection Hargv as <-.
  change (truthy (output_of _)) with true in H. cbv iota in H.
  destruct H as (Hnone & Hsaved & _).
  exists r, data. split; [exact Hin|]. split; [exact Hnone|]. split; [exact Hsaved|].
  vm_compute. reflexivity.
Defined.

(** ** The time axis *)

Lemma arange_lookup (n i : nat) :
  (i < n)%nat -> Np.arange n !! i = Some (inject_Z (Z.of_nat i)).
Proof.
  intros Hi. unfold Np.arange. rewrite lookup_map.
  rewrite lookup_seq_lt by exact Hi.
  reflexivity.
Qed.

Lemma round_0 n : round 0 n = 0 # pow10 n.
Proof. reflexivity. Qed.

Lemma round_nonneg x n : 0 <= x -> 0 <= round x n.
Proof.
  intros H. apply (round_mono _ _ n) in H. rewrite round_0 in H.
  eapply Qle_trans; [|exact H]. unfold Qle. cbn. lia.
Qed.

(** X6.  The saved time axis is the decimated one: point [j] of [time]
    is raw frame [4 j], at [4 j * hop_length / 16000] seconds rounded to
    four decimals, which is [j] steps of the reported [hop_length] at the
    reported [sample_rate]. *)
Theorem pitch_time_axis (e : env) (argv : option argument) (data : pitch_data)
    (j : nat) (t : Q) :
  In data (pitch_data_of (run (main e argv))) ->
  time data !! j = Some t ->
  exists fields hop,
    argv = Some (Parsed (JObject fields))
    /\ as_int (hop_length_of fields) = Ok hop
    /\ t = round (inject_Z (Z.of_nat (4 * j)) * inject_Z hop / 16000) 4
    /\ t = round (inject_Z (Z.of_nat j) * inject_Z (hop_length data)
                  / inject_Z (sample_rate data)) 4.
Proof.
  intros Hin Ht.
  apply pitch_data_inv in Hin
    as (fields & rf & rc & hop & gated & Hargv & _ & Hhop & _ & ->).
  exists fields, hop. split; [exact Hargv|]. split; [exact Hhop|].
  unfold build_pitch_data, downsample_factor in *.
  cbn [time hop_length sample_rate] in *.
  rewrite lookup_map, slice_step_lookup in Ht by lia.
  apply fmap_Some in Ht as (raw & Hraw & ->).
  unfold time_array in Hraw. rewrite lookup_map in Hraw.
  apply fmap_Some in Hraw as (i & Hi & ->).
  assert (Hlt : (j * 4 < length rf)%nat).
  { apply lookup_lt_Some in Hi. unfold Np.arange in Hi.
    now rewrite length_map, length_seq in Hi. }
  rewrite arange_lookup in Hi by exact Hlt. injection Hi as <-.
  split; apply round_comp.
  - rewrite (Nat.mul_comm 4 j). reflexivity.
  - rewrite Nat2Z.inj_mul, !inject_Z_mult. change (Z.of_nat 4) with 4%Z.
    change (inject_Z (Z.of_nat 4%nat)) with 4.
    change (inject_Z 16000) with 16000. change (inject_Z 4) with 4.
    field.
Qed.

Lemma pitch_time_axis_witness :
  In (hd_pitch_data crepe_examples.nine_frames crepe_examples.request)
     (pitch_data_of (run (main crepe_examples.nine_frames crepe_examples.request)))
  /\ time (hd_pitch_data crepe_examples.nine_frames crepe_examples.request) !! 2%nat
     = Some (2560 # 10000).
Proof.
  assert (Hin : In (hd_pitch_data crepe_examples.nine_frames crepe_examples.request)
                   (pitch_data_of (run (main crepe_examples.nine_frames
                                          crepe_examples.request))))
    by (vm_compute; left; reflexivity).
  assert (Ht : time (hd_pitch_data crepe_examples.nine_frames crepe_examples.request)
                 !! 2%nat = Some (2560 # 10000)) by (vm_compute; reflexivity).
  destruct (pitch_time_axis _ _ _ _ _ Hin Ht) as (fields & hop & _ & _ & _ & _).
  split; [exact Hin | exact Ht].
Defined.

(** ** Signs *)

(** X7.  No reported frequency or midi value is negative, whatever the
    estimator returned for them and whatever [np.log2] is: a value that is
    not positive is reported as 0. *)
Theorem pitch_values_are_not_negative (e : env) (argv : option argument)
    (data : pitch_data) :
  In data (pitch_data_of (run (main e argv))) ->
  Forall (fun f => 0 <= f) (frequency data) /\ Forall (fun m => 0 <= m) (midi data).
Proof.
  intros Hin.
  apply pitch_data_inv in Hin
    as (fields & rf & rc & hop & gated & _ & _ & _ & _ & ->).
  split; apply Forall_lookup; intros j v Hv.
  - rewrite frequency_lookup in Hv. apply fmap_Some in Hv as (g & _ & ->).
    destruct (Qltb 0 g) eqn:Hg; [|apply Qle_refl].
    apply round_nonneg. apply Qltb_lt in Hg. now apply Qlt_le_weak.
  - rewrite midi_lookup in Hv. apply fmap_Some in Hv as (m & _ & ->).
    destruct (Qltb 0 m) eqn:Hm; [|apply Qle_refl].
    apply round_nonneg. apply Qltb_lt in Hm. now apply Qlt_le_weak.
Qed.

Lemma pitch_values_are_not_negative_witness :
  In (hd_pitch_data (crepe_examples.studio crepe_examples.laptop [-(5 # 1); 6875 # 1000]
                                            [9 # 10; 9 # 10])
                    crepe_examples.request)
     (pitch_data_of (run (main (crepe_examples.studio crepe_examples.laptop
                                  [-(5 # 1); 6875 # 1000] [9 # 10; 9 # 10])
                               crepe_examples.request)))
  /\ Forall (fun f => 0 <= f)
       (frequency (hd_pitch_data (crepe_examples.studio crepe_examples.laptop
                                    [-(5 # 1); 6875 # 1000] [9 # 10; 9 # 10])
                                 crepe_examples.request)).
Proof.
  assert (Hin : In (hd_pitch_data (crepe_examples.studio crepe_examples.laptop
                                     [-(5 # 1); 6875 # 1000] [9 # 10; 9 # 10])
                                  crepe_examples.request)
                   (pitch_data_of (run (main (crepe_examples.studio crepe_examples.laptop
                                                [-(5 # 1); 6875 # 1000] [9 # 10; 9 # 10])
                                             crepe_examples.request))))
    by (vm_compute; left; reflexivity).
  split; [exact Hin|].
  exact (proj1 (pitch_values_are_not_negative _ _ _ Hin)).
Defined.

(** ** What the estimator is given *)

(** X8.  A successful pitch job resamples exactly when the file's sample
    rate is not 16000 (then from that rate to 16000), and calls the
    estimator once, after that, on 16 kHz audio with the request's
    [hop_length] and [model] (512 and [tiny] when the request gives
    none). *)
Theorem pitch_estimator_call (e : env) (argv : option argument) (r : result) :
  In r (results_of (run (main e argv))) ->
  exists fields audio,
    argv = Some (Parsed (JObject fields))
    /\ sf_read_ e = Ok audio
    /\ omap (fun c => match c with
                      | (predict sr hop m _, _) => Some (sr, hop, m)
                      | _ => None
                      end) (calls (final (run (main e argv))))
       = [(16000%Z, hop_length_of fields, model_of fields)]
    /\ omap (fun c => match c with
                      | (resample a b, _) => Some (a, b)
                      | _ => None
                      end) (calls (final (run (main e argv))))
       = (if (samplerate audio =? 16000)%Z then []
          else [(samplerate audio, 16000%Z)])
    /\ (fields !! "hop_length" = None -> hop_length_of fields = JInt 512)
    /\ (fields !! "model" = None -> model_of fields = JStr "tiny").
Proof.
  intros Hin. unfold results_of in Hin.
  destruct (pitch_outcome e argv) as [Hs|[[Hf _]|[Hc _]]].
  - destruct Hs as [fields audio rf rc seconds speed hop valid avg gated
                      Hargv _ Hread _ _ _ _ _ _ _ _ Hout].
    cbv zeta in Hout. destruct Hout as [_ Hcalls].
    exists fields, audio. split; [exact Hargv|]. split; [exact Hread|].
    rewrite Hcalls.
    split; [|split; [|split]].
    + destruct (samplerate audio =? 16000)%Z, (truthy (output_of fields)); reflexivity.
    + destruct (samplerate audio =? 16000)%Z, (truthy (output_of fields)); reflexivity.
    + intros H. unfold hop_length_of. now rewrite H.
    + intros H. unfold model_of. now rewrite H.
  - destruct Hf as (err & tb & Hout & _). rewrite Hout in Hin. destruct Hin.
  - destruct Hc as [Hout _]. rewrite Hout in Hin. destruct Hin.
Qed.

Lemma pitch_estimator_call_witness :
  exists r,
    In r (results_of (run (main crepe_examples.nine_frames crepe_examples.request)))
    /\ omap (fun c => match c with
                      | (resample a b, _) => Some (a, b)
                      | _ => None
                      end)
            (calls (final (run (main crepe_examples.nine_frames crepe_examples.request))))
       = [(44100%Z, 16000%Z)].
Proof.
  pose (r := hd (Result 0 0 cpu None 0 None JNull)
                (results_of (run (main crepe_examples.nine_frames crepe_examples.request)))).
  assert (Hin : In r (results_of (run (main crepe_examples.nine_frames
                                            crepe_examples.request))))
    by (vm_compute; left; reflexivity).
  destruct (pitch_estimator_call _ _ _ Hin) as (fields & audio & _ & Hread & _ & Hres & _).
  injection Hread as <-.
  exists r. split; [exact Hin | exact Hres].
Defined.

(** ** The mean confidence *)

Lemma bool_index_voiced (frequency confidence : list Q) :
  omap (fun p : Q * bool => if p.2 then Some p.1 else None)
       (zip confidence
            (zip_with andb (map (Qltb 0) frequency) (map (Qltb (1 # 2)) confidence)))
  = voiced_confidences frequency confidence.
Proof.
  revert confidence.
  induction frequency as [|f fs IH]; intros [|c cs]; try reflexivity.
  cbn [map zip_with omap voiced_confidences]. rewrite <- IH.
  unfold voiced. cbn. destruct (Qltb 0 f && Qltb (1 # 2) c); reflexivity.
Qed.

Lemma voiced_confidences_length (frequency confidence : list Q) :
  length (voiced_confidences frequency confidence) = count_voiced frequency confidence.
Proof.
  revert confidence.
  induction frequency as [|f fs IH]; intros [|c cs]; try reflexivity.
  cbn [voiced_confidences count_voiced]. rewrite length_app, IH.
  destruct (voiced f c); reflexivity.
Qed.

(** X9.  The reported [avg_confidence] is the mean of the raw confidence
    over the voiced frames (those with [frequency > 0] and
    [confidence > 0.5], before gating and downsampling) rounded to three
    decimals, and 0 when no frame is voiced. *)
Theorem pitch_avg_confidence (e : env) (argv : option argument) (r : result) :
  In r (results_of (run (main e argv))) ->
  exists raw_frequency raw_confidence,
    predict_ e = Ok (raw_frequency, raw_confidence)
    /\ avg_confidence r =
         round (match count_voiced raw_frequency raw_confidence with
                | O => 0
                | S _ =>
                    Np.sum (voiced_confidences raw_frequency raw_confidence)
                    / inject_Z (Z.of_nat (count_voiced raw_frequency raw_confidence))
                end) 3.
Proof.
  intros Hin.
  apply pitch_result_inv in Hin
    as (fields & rf & rc & hop & valid & avg & gated
        & _ & Hpredict & _ & Hvalid & Havg & Hgate & _ & ->).
  exists rf, rc. split; [exact Hpredict|].
  apply gate_inv in Hgate as [Hlen _].
  destruct (valid_frames_count _ _ _ Hvalid Hlen) as [_ Hany].
  pose proof (valid_frames_length _ _ _ Hvalid Hlen) as Hvl.
  unfold build_result. cbn [avg_confidence]. f_equal.
  unfold avg_confidence_of, Np.bool_index in Havg.
  rewrite Hvl, Nat.eqb_refl in Havg.
  destruct (Np.any valid) eqn:Ha.
  - injection Havg as <-.
    destruct (count_voiced rf rc) eqn:Hc;
      [destruct Hany as [_ H]; specialize (H eq_refl); discriminate|].
    unfold valid_frames, Np.broadcast in Hvalid. rewrite !length_map in Hvalid.
    rewrite Hlen, Nat.eqb_refl in Hvalid. injection Hvalid as <-.
    rewrite bool_index_voiced. unfold Np.mean.
    now rewrite voiced_confidences_length, Hc.
  - injection Havg as <-. destruct Hany as [H _]. now rewrite (H eq_refl).
Qed.

Lemma pitch_avg_confidence_witness :
  exists r,
    In r (results_of (run (main crepe_examples.nine_frames crepe_examples.request)))
    /\ avg_confidence r = 814 # 1000.
Proof.
  pose (r := hd (Result 0 0 cpu None 0 None JNull)
                (results_of (run (main crepe_examples.nine_frames crepe_examples.request)))).
  assert (Hin : In r (results_of (run (main crepe_examples.nine_frames
                                            crepe_examples.request))))
    by (vm_compute; left; reflexivity).
  destruct (pitch_avg_confidence _ _ _ Hin) as (rf & rc & Hp & Ha).
  injection Hp as <- <-.
  exists r. split; [exact Hin|]. rewrite Ha. vm_compute. reflexivity.
Defined.

(** ** The progress channel of the pitch job *)



End crepe_facts.

(** * The stems runner *)

Module demucs_facts.
Import Py Proc Json Torch demucs_runner demucs_runs PyFacts ProcFacts.
#[local] Open Scope Q_scope.

#[local] Arguments truediv : simpl never.
#[local] Arguments truthy : simpl never.
#[local] Arguments Z.eqb : simpl never.
#[local] Arguments as_path : simpl never.
#[local] Arguments save_stems : simpl never.

(** ** The loop that saves the stems *)

(** The dictionary the loop builds from [stem_files] over [names]. *)
Lemma save_stems_spec (e : env) (output_path : string) (separated : nat)
    (sample_rate : Z) (num_sources : nat) (names : list string) :
  forall (i : nat) (stem_files : gmap string string) w,
    match save_stems e output_path separated sample_rate num_sources i names
                     stem_files w with
    | (Return m, w') =>
        m = foldl (fun acc name => <[name := stem_path output_path name]> acc)
                  stem_files names
        /\ stdout w' = stdout w /\ sys_stdout w' = sys_stdout w
        /\ Forall (fun name => sf_write_ e (stem_path output_path name) = Ok tt) names
        /\ (i + length names <= separated \/ names = [])%nat
    | (Raise ex, w') =>
        stdout w' = stdout w /\ sys_stdout w' = sys_stdout w
        /\ (Exists (fun name => sf_write_ e (stem_path output_path name) = Exn ex) names
            \/ (separated < i + length names)%nat)
    | (SysExit _, _) => False
    end.
Proof.
  induction names as [|name names IH]; intros i stem_files w.
  - cbn. repeat split; auto.
  - unfold save_stems; fold save_stems. cbn.
    unfold source_at. destruct (i <? separated)%nat eqn:Hi; cbn.
    2: { apply Nat.ltb_ge in Hi. repeat split; auto. right. lia. }
    apply Nat.ltb_lt in Hi.
    fold (stem_path output_path name).
    destruct (sf_write_ e (stem_path output_path name)) as [[]|ex] eqn:Hw; cbn.
    2: { repeat split; auto. }
    match goal with
    | |- context [save_stems _ _ _ _ _ _ _ ?m ?w0] =>
        specialize (IH (S i) m w0);
        destruct (save_stems e output_path separated sample_rate num_sources
                             (S i) names m w0) as [[m'|ex|c] w']
    end; cbn in *.
    + destruct IH as (Hm & Hout & Hsys & Hall & Hsep). subst m'.
      repeat split; auto. left. destruct Hsep as [Hsep | ->]; cbn; lia.
    + destruct IH as (Hout & Hsys & [Hex|Hsep]); repeat split; auto. right; lia.
    + exact IH.
Qed.

Lemma foldl_insert_dom (f : string -> string) (names : list string) :
  forall (acc : gmap string string),
    dom (foldl (fun acc name => <[name := f name]> acc) acc names)
    = dom acc ∪ list_to_set names.
Proof.
  induction names as [|name names IH]; intros acc; cbn.
  - set_solver.
  - rewrite IH, dom_insert_L. set_solver.
Qed.

Lemma foldl_insert_lookup (f : string -> string) (names : list string) :
  forall (acc : gmap string string) name,
    name ∈ names ->
    foldl (fun acc name => <[name := f name]> acc) acc names !! name = Some (f name).
Proof.
  induction names as [|n names IH]; intros acc name Hin.
  - inversion Hin.
  - cbn. destruct (decide (name ∈ names)) as [Hlater|Hnot].
    + now apply IH.
    + assert (name = n) as -> by (inversion Hin; subst; tauto).
      clear IH Hin. revert acc.
      assert (H : forall acc : gmap string string, acc !! n = Some (f n) ->
                foldl (fun acc name => <[name := f name]> acc) acc names !! n = Some (f n)).
      { induction names as [|m names IH]; intros acc Hacc; cbn; [exact Hacc|].
        apply IH; [set_solver|].
        rewrite lookup_insert_ne; [exact Hacc|]. set_solver. }
      intros acc. apply H. apply lookup_insert_eq.
Qed.

(** ** Outcomes of [main] *)

Ltac exec e fields failed :=
  unfold run, main; cbn;
  destruct (truthy (default JNull (fields !! "input"))) eqn:Hinput; cbn; [|failed];
  destruct (truthy (default JNull (fields !! "output_dir"))) eqn:Houtput; cbn; [|failed];
  unfold try_except, body, detect_device;
  destruct (import_demucs_ e) as [[]|?] eqn:Himport; cbn; [|failed];
  destruct (cuda_is_available (host e)) eqn:Hcuda; cbn;
    [destruct (cuda_get_device_name (host e)) as [name|?] eqn:Hname; cbn; [|failed]
    |destruct (mps_is_available (host e)) eqn:Hmps; cbn];
  (destruct (get_model_ e) as [model|?] eqn:Hmodel; cbn; [|failed]);
  (destruct (model_to_ e) as [[]|?] eqn:Hto; cbn; [|failed]);
  (destruct (sf_read_ e) as [audio|?] eqn:Hread; cbn; [|failed]);
  (destruct (truediv _ _) as [seconds|?] eqn:Hseconds; cbn; [|failed]);
  (destruct (convert_audio_ e) as [[]|?] eqn:Hconvert; cbn; [|failed]);
  (destruct (apply_model_ e) as [separated|?] eqn:Hseparated; cbn; [|failed]);
  destruct (samplerate model =? sound_rate audio)%Z eqn:Hrate; cbn;
  try (destruct (resample_ e) as [[]|?] eqn:Hresample; cbn; [|failed]);
  (destruct (as_path _) as [output_path|?] eqn:Hpath; cbn; [|failed]);
  (destruct (mkdir_ e) as [[]|?] eqn:Hmkdir; cbn; [|failed]);
  rewrite bind_unfold;
  match goal with
  | |- context [save_stems e ?o ?s ?r ?n 0%nat ?names ∅ ?w0] =>
      pose proof (save_stems_spec e o s r n names 0%nat ∅ w0) as Hloop;
      destruct (save_stems e o s r n 0%nat names ∅ w0) as [[stem_files|?|?] w'];
      cbn in Hloop; cbn
  end.

Lemma stems_outcome (e : env) (argv : option argument) :
  let x := run (main e argv) in
  succeeds e argv x
  \/ fails x
  \/ (crashes x /\ exists v, argv = Some (Parsed (JOther v))).
Proof.
  destruct argv as [[why|[fields|v]]|]; cbn.
  - right; left. eexists _, _; split; reflexivity.
  - exec e fields ltac:(right; left; eexists _, _; split; reflexivity).
    all: try contradiction.
    all: first [ destruct Hloop as (Hm & Hstdout & Hsys & Hwrites & Henough)
               | destruct Hloop as (Hstdout & Hsys & Hwhy) ];
      cbn in Hstdout, Hsys; rewrite ?Hsys; cbn.
    all: try (right; left; eexists _, _; cbn; rewrite Hstdout; split; reflexivity).
    all: subst stem_files.
    all: left; eapply (Succeeds _ _ _ fields model audio seconds separated output_path);
      try eassumption; try reflexivity.
    all: cbn; rewrite Hstdout; unfold detected, model_of; rewrite ?Hcuda, ?Hmps; reflexivity.
  - right; right. split; [split; reflexivity|eauto].
  - right; left. eexists _, _; split; reflexivity.
Qed.

Lemma stems_result_inv (e : env) (argv : option argument) (r : result) :
  In r (results_of (run (main e argv))) ->
  exists fields model audio seconds output_path,
    argv = Some (Parsed (JObject fields))
    /\ get_model_ e = Ok model
    /\ sf_read_ e = Ok audio
    /\ as_path (output_dir_of fields) = Ok output_path
    /\ mkdir_ e = Ok tt
    /\ Forall (fun name => sf_write_ e (stem_path output_path name) = Ok tt) (sources model)
    /\ status (run (main e argv)) = 0%Z
    /\ payloads (stdout (final (run (main e argv)))) = [Success r]
    /\ r = {| stems := foldl (fun acc name => <[name := stem_path output_path name]> acc)
                             ∅ (sources model);
              model := model_of fields;
              device := detected (host e);
              sample_rate := sound_rate audio;
              duration := seconds |}.
Proof.
  intros Hin. unfold results_of in Hin.
  destruct (stems_outcome e argv) as [Hs|[Hf|[Hc _]]].
  - destruct Hs as [fields model audio seconds separated output_path
                      Hargv Hmodel Hread _ _ _ Hpath Hmkdir Hwrites Hstatus Hout].
    rewrite Hout in Hin. cbn in Hin. destruct Hin as [<-|[]].
    exists fields, model, audio, seconds, output_path.
    rewrite Hout. repeat split; assumption || reflexivity.
  - destruct Hf as (err & tb & Hout & _). rewrite Hout in Hin. destruct Hin.
  - destruct Hc as [Hout _]. rewrite Hout in Hin. destruct Hin.
Qed.

(** ** The keys of the stems mapping *)

(** C5.  In every successful stems result the keys of [stems] are exactly
    the separation model's declared sources, each once (the mapping has
    as many entries as there are distinct sources), and each is mapped to
    its file under the output directory; such a result exists only if the
    directory was created and every stem was written.  If creating the
    directory or writing any stem raises, the run prints no result: it
    ends with one error object and exit status 1. *)
Theorem C5_stems_are_the_declared_sources (e : env) (argv : option argument) :
  let x := run (main e argv) in
  (forall r, In r (results_of x) ->
     exists model output_path,
       get_model_ e = Ok model
       /\ dom (stems r) = list_to_set (sources model)
       /\ size (stems r) = length (remove_dups (sources model))
       /\ forall name, name ∈ sources model ->
            stems r !! name = Some (stem_path output_path name))
  /\ (forall fields model output_path,
        argv = Some (Parsed (JObject fields)) ->
        get_model_ e = Ok model ->
        as_path (output_dir_of fields) = Ok output_path ->
        (exists ex, mkdir_ e = Exn ex)
        \/ Exists (fun name => exists ex, sf_write_ e (stem_path output_path name) = Exn ex)
                  (sources model) ->
        results_of x = []
        /\ status x = 1%Z
        /\ exists error traceback,
             payloads (stdout (final x)) = [Failure error traceback]).
Proof.
  cbv zeta. split.
  - intros r Hin.
    apply stems_result_inv in Hin
      as (fields & model & audio & seconds & output_path
          & _ & Hmodel & _ & _ & _ & _ & _ & _ & ->).
    exists model, output_path. split; [exact Hmodel|]. cbn [stems].
    assert (Hdom : dom (foldl (fun acc name => <[name := stem_path output_path name]> acc)
                              (∅ : gmap string string) (sources model))
                   = list_to_set (sources model)).
    { rewrite foldl_insert_dom. set_solver. }
    split; [exact Hdom|]. split.
    + assert (Hrd : list_to_set (remove_dups (sources model))
                    =@{gset string} list_to_set (sources model)).
      { apply set_eq. intros x.
        now rewrite !elem_of_list_to_set, elem_of_remove_dups. }
      rewrite <- size_dom, Hdom, <- Hrd.
      apply size_list_to_set, NoDup_remove_dups.
    + intros name Hname. now apply foldl_insert_lookup.
  - intros fields model output_path Hargv Hmodel Hpath Hbad.
    destruct (stems_outcome e argv) as [Hs|[Hf|[_ [v Hv]]]].
    + exfalso.
      destruct Hs as [fields' model' audio seconds separated output_path'
                        Hargv' Hmodel' _ _ _ _ Hpath' Hmkdir Hwrites _ _].
      rewrite Hargv in Hargv'. injection Hargv' as <-.
      rewrite Hmodel in Hmodel'. injection Hmodel' as <-.
      rewrite Hpath in Hpath'. injection Hpath' as <-.
      destruct Hbad as [[ex Hex]|Hex]; [congruence|].
      apply List.Exists_exists in Hex as (name & Hname & ex & Hex).
      rewrite List.Forall_forall in Hwrites. specialize (Hwrites name Hname). congruence.
    + destruct Hf as (err & tb & Hout & Hst).
      unfold results_of. rewrite Hout. cbn. eauto.
    + congruence.
Qed.

Example four_stems_saved :
  exists r,
    payloads (stdout (final (run (main (four_stems disk_ok) request)))) = [Success r]
    /\ size (stems r) = 4%nat
    /\ stems r !! "drums" = Some "out/drums.wav"
    /\ stems r !! "bass" = Some "out/bass.wav"
    /\ stems r !! "other" = Some "out/other.wav"
    /\ stems r !! "vocals" = Some "out/vocals.wav"
    /\ sample_rate r = 48000%Z
    /\ device r = mps.
Proof. eexists. split; [vm_compute; reflexivity|]. repeat split. Qed.

Example disk_full_is_fatal :
  payloads (stdout (final (run (main (four_stems (disk_full_at "out/other.wav")) request))))
  = [Failure "No space left on device" (Some (LibraryError "No space left on device"))]
  /\ status (run (main (four_stems (disk_full_at "out/other.wav")) request)) = 1%Z.
Proof. split; vm_compute; reflexivity. Qed.

(** ** The result channel of the stems job *)


(** X11.  Input errors of the stems job fail fast: a missing argument, an
    argument that is not JSON, and a request object in which [input] or
    [output_dir] is absent or false each print one error object without
    traceback and exit with status 1, before any library is imported or
    called, the output directory included. *)
Theorem stems_input_errors (e : env) :
  run (main e None)
  = Exited 1 (World [Json (Failure "Missing arguments" None)] [] Stdout [])
  /\ (forall why,
        run (main e (Some (Malformed why)))
        = Exited 1 (World [Json (Failure ("Invalid JSON arguments: " ++ why) None)]
                          [] Stdout []))
  /\ (forall fields,
        truthy (input_of fields) = false \/ truthy (output_dir_of fields) = false ->
        run (main e (Some (Parsed (JObject fields))))
        = Exited 1 (World [Json (Failure "Missing input or output_dir" None)]
                          [] Stdout [])).
Proof.
  split; [reflexivity|]. split; [reflexivity|].
  intros fields Hin. unfold run, main, input_of, output_dir_of in *. cbn.
  unfold get, get_default. cbn.
  destruct Hin as [Hin|Hin]; rewrite Hin; cbn;
    [|rewrite orb_true_r]; reflexivity.
Qed.

(** ** What the result reports *)

(** X12.  A successful stems result reports the input file's own sample
    rate (not the model's) and its duration [samples / rate], the model
    name of the request ([htdemucs_ft] when it gives none), and the device
    chosen by the priority CUDA, then MPS, then CPU. *)
Theorem stems_report (e : env) (argv : option argument) (r : result) :
  In r (results_of (run (main e argv))) ->
  exists fields audio,
    argv = Some (Parsed (JObject fields))
    /\ sf_read_ e = Ok audio
    /\ sample_rate r = sound_rate audio
    /\ duration r = inject_Z (Z.of_nat (samples audio)) / inject_Z (sound_rate audio)
    /\ ~ inject_Z (sound_rate audio) == 0
    /\ model r = default (JStr "htdemucs_ft") (fields !! "model")
    /\ device r = (if cuda_is_available (host e) then cuda
                   else if mps_is_available (host e) then mps else cpu).
Proof.
  intros Hin. unfold results_of in Hin.
  destruct (stems_outcome e argv) as [Hs|[Hf|[Hc _]]].
  - destruct Hs as [fields model audio seconds separated output_path
                      Hargv _ Hread Hseconds _ _ _ _ _ _ Hout].
    rewrite Hout in Hin. cbn in Hin. destruct Hin as [<-|[]].
    exists fields, audio. split; [exact Hargv|]. split; [exact Hread|].
    unfold truediv in Hseconds.
    destruct (Qeq_bool (inject_Z (sound_rate audio)) 0) eqn:Hz; [discriminate|].
    injection Hseconds as <-. apply Qeq_bool_neq in Hz.
    repeat split; try reflexivity. exact Hz.
  - destruct Hf as (err & tb & Hout & _). rewrite Hout in Hin. destruct Hin.
  - destruct Hc as [Hout _]. rewrite Hout in Hin. destruct Hin.
Qed.

Lemma stems_report_witness :
  exists r,
    In r (results_of (run (main (four_stems disk_ok) request)))
    /\ sample_rate r = 48000%Z
    /\ device r = mps.
Proof.
  pose (r := hd (Result ∅ JNull cpu 0 0) (results_of (run (main (four_stems disk_ok) request)))).
  assert (Hin : In r (results_of (run (main (four_stems disk_ok) request))))
    by (vm_compute; left; reflexivity).
  destruct (stems_report _ _ _ Hin) as (fields & audio & _ & Hread & Hrate & _ & _ & _ & Hdev).
  injection Hread as <-.
  exists r. split; [exact Hin|]. split; [exact Hrate | exact Hdev].
Defined.

(** X13.  A stems result exists only if the separation returned at least
    as many sources as the model declares (or none is declared): with
    fewer, indexing the missing source raises and the job fails. *)
Theorem stems_need_enough_sources (e : env) (argv : option argument) (r : result) :
  In r (results_of (run (main e argv))) ->
  exists model separated,
    get_model_ e = Ok model
    /\ apply_model_ e = Ok separated
    /\ (length (sources model) <= separated \/ sources model = [])%nat.
Proof.
  intros Hin. unfold results_of in Hin.
  destruct (stems_outcome e argv) as [Hs|[Hf|[Hc _]]].
  - destruct Hs as [fields model audio seconds separated output_path
                      _ Hmodel _ _ Hsep Henough _ _ _ _ _].
    eauto.
  - destruct Hf as (err & tb & Hout & _). rewrite Hout in Hin. destruct Hin.
  - destruct Hc as [Hout _]. rewrite Hout in Hin. destruct Hin.
Qed.

Lemma stems_need_enough_sources_witness :
  exists r,
    In r (results_of (run (main (four_stems disk_ok) request)))
    /\ apply_model_ (four_stems disk_ok) = Ok 4%nat.
Proof.
  pose (r := hd (Result ∅ JNull cpu 0 0) (results_of (run (main (four_stems disk_ok) request)))).
  assert (Hin : In r (results_of (run (main (four_stems disk_ok) request))))
    by (vm_compute; left; reflexivity).
  destruct (stems_need_enough_sources _ _ _ Hin) as (model & separated & _ & Hsep & _).
  exists r. split; [exact Hin|]. reflexivity.
Defined.

(** ** The progress band of the loop *)

(** The percentage reported before saving stem [i] of [n] lies in the
    band 85..98 and does not decrease with [i]. *)
Lemma stem_progress_band (n i j : nat) :
  (i <= j < n)%nat ->
  (85 <= stem_progress n i <= stem_progress n j)%Z /\ (stem_progress n j <= 98)%Z.
Proof.
  intros [Hij Hjn]. unfold stem_progress.
  assert (Hn : 0 < inject_Z (Z.of_nat n)) by (unfold Qlt; cbn; lia).
  assert (Hfrac : forall k, (k < n)%nat ->
            0 <= inject_Z (Z.of_nat k) / inject_Z (Z.of_nat n)
            /\ inject_Z (Z.of_nat k) / inject_Z (Z.of_nat n) < 1).
  { intros k Hk. split.
    - apply Qle_shift_div_l; [exact Hn|]. rewrite Qmult_0_l. unfold Qle; cbn; lia.
    - apply Qlt_shift_div_r; [exact Hn|]. rewrite Qmult_1_l. unfold Qlt; cbn; lia. }
  assert (Hmono : inject_Z (Z.of_nat i) / inject_Z (Z.of_nat n)
                  <= inject_Z (Z.of_nat j) / inject_Z (Z.of_nat n)).
  { unfold Qdiv. apply Qmult_le_compat_r.
    - unfold Qle; cbn; lia.
    - apply Qlt_le_weak, Qinv_lt_0_compat, Hn. }
  destruct (Hfrac i ltac:(lia)) as [Hi0 Hi1]. destruct (Hfrac j Hjn) as [Hj0 Hj1].
  remember (inject_Z (Z.of_nat i) / inject_Z (Z.of_nat n)) as a.
  remember (inject_Z (Z.of_nat j) / inject_Z (Z.of_nat n)) as b.
  assert (Hlow : (85 <= Qfloor (85 + a * 14))%Z).
  { apply (Z.le_trans _ (Qfloor 85)); [apply Z.le_refl|].
    apply Qfloor_resp_le. lra. }
  assert (Hhigh : (Qfloor (85 + b * 14) <= 98)%Z).
  { apply Z.lt_succ_r. apply Z.lt_nge. intros Hge.
    pose proof (Qfloor_le (85 + b * 14)) as Hfl.
    assert (H99 : inject_Z 99 <= inject_Z (Qfloor (85 + b * 14)))
      by (rewrite <- Zle_Qle; exact Hge).
    change (inject_Z 99) with 99 in H99. lra. }
  repeat split; [exact Hlow| |exact Hhigh].
  apply Qfloor_resp_le. lra.
Qed.

(** ** The progress channel of the stems job *)

Lemma climbs_antitone (ps : list Z) (low low' : Z) :
  (low' <= low)%Z -> Progress.climbs low ps = true -> Progress.climbs low' ps = true.
Proof.
  destruct ps as [|p ps]; [reflexivity|]. cbn. intros Hle H.
  apply andb_prop in H as [H Hrest]. apply andb_prop in H as [Hlo Hhi].
  apply Z.leb_le in Hlo. rewrite Hrest, Hhi.
  assert (Hl : (low' <=? p)%Z = true) by (apply Z.leb_le; lia).
  now rewrite Hl.
Qed.

Lemma climbs_app (ps qs : list Z) (mid : Z) :
  forall low,
    (low <= mid)%Z ->
    Progress.climbs low ps = true ->
    Forall (fun p => (p <= mid)%Z) ps ->
    Progress.climbs mid qs = true ->
    Progress.climbs low (ps ++ qs) = true.
Proof.
  induction ps as [|p ps IH]; intros low Hmid Hps Hall Hqs; cbn.
  - now apply (climbs_antitone qs mid).
  - cbn in Hps. apply andb_prop in Hps as [H Hrest]. rewrite H. cbn.
    inversion Hall as [|? ? Hp Hall']; subst.
    now apply IH.
Qed.

Lemma climbs_band (n : nat) (tail : list Z) (m : nat) :
  Progress.climbs 98 tail = true ->
  forall i low,
    (i + m <= n)%nat ->
    (low <= 85)%Z \/ (exists k, (k <= i)%nat /\ (k < n)%nat /\ low = stem_progress n k) ->
    Progress.climbs low (map (stem_progress n) (seq i m) ++ tail) = true.
Proof.
  intros Htail. induction m as [|m IH]; intros i low Hi Hlow;
    cbn [map seq app Progress.climbs].
  - apply (climbs_antitone tail 98); [|exact Htail].
    destruct Hlow as [Hlow|(k & Hk & Hkn & ->)]; [lia|].
    apply (stem_progress_band n k k). lia.
  - assert (Hin : (i < n)%nat) by lia.
    destruct (stem_progress_band n i i ltac:(lia)) as [[H85 _] H98].
    assert (Hle : (low <= stem_progress n i)%Z).
    { destruct Hlow as [Hlow|(k & Hk & Hkn & ->)]; [lia|].
      apply (stem_progress_band n k i). lia. }
    apply Z.leb_le in Hle. rewrite Hle.
    assert (H100 : (stem_progress n i <=? 100)%Z = true) by (apply Z.leb_le; lia).
    rewrite H100. cbn [andb].
    apply IH; [lia|]. right. exists i. repeat split; lia.
Qed.

(** The progress lines of the loop: one per iteration begun, with the
    percentage of line 128. *)
Lemma save_stems_progress (e : env) (output_path : string) (separated : nat)
    (sample_rate : Z) (n : nat) (names : list string) :
  forall (i : nat) (stem_files : gmap string string) w,
    exists m,
      (m <= length names)%nat
      /\ Progress.percents
           (stderr (save_stems e output_path separated sample_rate n i names stem_files w).2)
         = Progress.percents (stderr w) ++ map (stem_progress n) (seq i m)
      /\ payloads (stderr (save_stems e output_path separated sample_rate n i names
                                      stem_files w).2)
         = payloads (stderr w)
      /\ (forall a, (save_stems e output_path separated sample_rate n i names stem_files w).1
                    = Return a -> m = length names).
Proof.
  induction names as [|name names IH]; intros i stem_files w.
  - exists 0%nat. cbn. rewrite app_nil_r. repeat split; auto.
  - unfold save_stems; fold save_stems. cbn.
    unfold source_at. destruct (i <? separated)%nat; cbn.
    2: { exists 1%nat. cbn. unfold Progress.percents, payloads.
         rewrite !omap_app. cbn. rewrite app_nil_r.
         repeat split; auto; [lia|discriminate]. }
    destruct (sf_write_ e _) as [[]|ex]; cbn.
    2: { exists 1%nat. cbn. unfold Progress.percents, payloads.
         rewrite !omap_app. cbn. rewrite app_nil_r.
         repeat split; auto; [lia|discriminate]. }
    match goal with
    | |- context [save_stems _ _ _ _ _ _ _ ?acc ?w0] =>
        destruct (IH (S i) acc w0) as (m & Hm & Hp & Hj & Hret)
    end.
    exists (S m). cbn in *. rewrite Hp, Hj.
    unfold Progress.percents, payloads. rewrite !omap_app. cbn.
    rewrite app_nil_r, <- app_assoc. cbn.
    repeat split; auto; [lia|].
    intros a Ha. f_equal. eapply Hret. exact Ha.
Qed.


Ltac exec_traced e fields failed :=
  unfold run, main; cbn;
  destruct (truthy (default JNull (fields !! "input"))) eqn:Hinput; cbn; [|failed];
  destruct (truthy (default JNull (fields !! "output_dir"))) eqn:Houtput; cbn; [|failed];
  unfold try_except, body, detect_device;
  destruct (import_demucs_ e) as [[]|?] eqn:Himport; cbn; [|failed];
  destruct (cuda_is_available (host e)) eqn:Hcuda; cbn;
    [destruct (cuda_get_device_name (host e)) as [name|?] eqn:Hname; cbn; [|failed]
    |destruct (mps_is_available (host e)) eqn:Hmps; cbn];
  (destruct (get_model_ e) as [model|?] eqn:Hmodel; cbn; [|failed]);
  (destruct (model_to_ e) as [[]|?] eqn:Hto; cbn; [|failed]);
  (destruct (sf_read_ e) as [audio|?] eqn:Hread; cbn; [|failed]);
  (destruct (truediv _ _) as [seconds|?] eqn:Hseconds; cbn; [|failed]);
  (destruct (convert_audio_ e) as [[]|?] eqn:Hconvert; cbn; [|failed]);
  (destruct (apply_model_ e) as [separated|?] eqn:Hseparated; cbn; [|failed]);
  destruct (samplerate model =? sound_rate audio)%Z eqn:Hrate; cbn;
  try (destruct (resample_ e) as [[]|?] eqn:Hresample; cbn; [|failed]);
  (destruct (as_path _) as [output_path|?] eqn:Hpath; cbn; [|failed]);
  (destruct (mkdir_ e) as [[]|?] eqn:Hmkdir; cbn; [|failed]);
  rewrite bind_unfold;
  match goal with
  | |- context [save_stems e ?o ?s ?r ?n 0%nat ?names ∅ ?w0] =>
      pose proof (save_stems_spec e o s r n names 0%nat ∅ w0) as Hloop;
      destruct (save_stems_progress e o s r n names 0%nat ∅ w0)
        as (m & Hm & Hpercents & Hjson & _);
      destruct (save_stems e o s r n 0%nat names ∅ w0) as [[stem_files|?|?] w'];
      cbn in Hloop, Hpercents, Hjson; cbn
  end.

Ltac early_ok :=
  solve [ split; [apply well_formed_by_test; reflexivity
                 |cbn; intros; first [reflexivity | discriminate]] ].

(** X15.  Whatever happens, and whatever the number of sources, the
    progress lines of the stems job have percentages that never decrease
    and stay within 0..100, and no JSON object is written among them; a
    job that exits with status 0 has reported 100 last. *)
Theorem stems_progress (e : env) (argv : option argument) :
  let x := run (main e argv) in
  Progress.well_formed (stderr (final x))
  /\ (status x = 0%Z -> last (Progress.percents (stderr (final x))) = Some 100%Z).
Proof.
  destruct argv as [[why|[fields|v]]|]; [early_ok| |early_ok|early_ok].
  cbn. exec_traced e fields ltac:(early_ok).
  all: try contradiction.
  all: first [ destruct Hloop as (_ & _ & Hsys & _) | destruct Hloop as (_ & Hsys & _) ];
    rewrite Hsys; cbn [stderr final status].
  all: split; [apply well_formed_by_test|].
  all: unfold Progress.percents, payloads in *; rewrite ?omap_app, ?Hpercents, ?Hjson.
  all: try reflexivity.
  all: try (intros; discriminate).
  all: try (intros _; cbn [omap]; apply last_snoc).
  all: cbn [omap app Progress.climbs Z.leb Z.compare Pos.compare Pos.compare_cont andb].
  all: try (apply climbs_band; [reflexivity|lia|left; lia]).
  all: rewrite <- (app_nil_r (map _ _)); apply climbs_band; [reflexivity|lia|left; lia].
Qed.

End demucs_facts.

(** * The transcript runner *)

Module whisper_facts.
Import Py Proc Json Torch whisper_runner whisper_runs PyFacts ProcFacts.
#[local] Open Scope Q_scope.

#[local] Arguments truthy : simpl never.
#[local] Arguments prompt_words : simpl never.
#[local] Arguments extract_words : simpl never.
#[local] Arguments extract_lines : simpl never.
#[local] Arguments avg_confidence_of : simpl never.
#[local] Arguments round : simpl never.
#[local] Arguments strip : simpl never.
#[local] Arguments Z.ltb : simpl never.
#[local] Arguments Z.max : simpl never.
#[local] Arguments Qfloor : simpl never.
#[local] Arguments Qdiv : simpl never.

(** While [sys.stdout] is bound to the error stream, what the model
    prints lands there. *)
Lemma print_verbose (said : list string) :
  forall (out err : list (line result)) (cs : list (ext_call * bool)),
    fold_right (fun l k => bind (print (Text l)) (fun _ => k)) (ret tt) said
               (World out err Stderr cs)
    = (Return tt, World out (err ++ map Text said) Stderr cs).
Proof.
  induction said as [|l said IH]; intros out err cs; cbn.
  - now rewrite app_nil_r.
  - rewrite IH. now rewrite <- app_assoc.
Qed.

Ltac exec e fields failed :=
  unfold run, main; cbn;
  destruct (truthy (default JNull (fields !! "input"))) eqn:Hinput; cbn; [|failed];
  unfold try_except, body, detect_device;
  destruct (import_whisper_ e) as [[]|?] eqn:Himport; cbn; [|failed];
  destruct (cuda_is_available (host e)) eqn:Hcuda; cbn;
    [destruct (cuda_get_device_name (host e)) as [name|?] eqn:Hname; cbn; [|failed]
    |destruct (mps_is_available (host e)) eqn:Hmps; cbn];
  (destruct (load_model_ e) as [[]|?] eqn:Hload; cbn; [|failed]);
  (destruct (load_audio_ e) as [audio_len|?] eqn:Haudio; cbn; [|failed]);
  destruct (truthy (default JNull (fields !! "initial_prompt"))) eqn:Hprompt; cbn;
  try (destruct (prompt_words _) as [hints|?] eqn:Hhints; cbn; [|failed]);
  destruct (1 <? _)%Z; cbn;
  rewrite bind_unfold, print_verbose; cbn;
  destruct (transcribe_ e) as [t|?] eqn:Htranscribe; cbn.

Lemma transcript_outcome (e : env) (argv : option argument) :
  let x := run (main e argv) in
  succeeds e argv x
  \/ fails x
  \/ (misdirects x /\ exists ex, transcribe_ e = Exn ex)
  \/ (crashes x /\ exists v, argv = Some (Parsed (JOther v))).
Proof.
  destruct argv as [[why|[fields|v]]|]; cbn.
  - right; left. eexists _, _; split; reflexivity.
  - exec e fields ltac:(right; left; eexists _, _; split; reflexivity).
    all: try (left; eapply (Succeeds _ _ _ fields audio_len t);
              try eassumption; try reflexivity;
              cbn; unfold detected, model_of, language_of; rewrite ?Hcuda, ?Hmps;
              reflexivity).
    all: right; right; left; split; [|eauto].
    all: eexists _, _; cbn; split; [reflexivity|].
    all: split; [|split; reflexivity].
    all: unfold payloads; rewrite omap_app; apply in_or_app; right; left; reflexivity.
  - right; right; right. split; [split; reflexivity|eauto].
  - right; left. eexists _, _; split; reflexivity.
Qed.


(** ** Word timings *)






(** The specification's own example: "la la la" over [0, 3] gives three
    words over [0,1], [1,2] and [2,3]. *)
Example la_la_la_words :
  segment_words la_la_la
  = [ {| word := "la"; start := 0 # 1000; end_ := 1000 # 1000 |};
      {| word := "la"; start := 1000 # 1000; end_ := 2000 # 1000 |};
      {| word := "la"; start := 2000 # 1000; end_ := 3000 # 1000 |} ].
Proof. vm_compute. reflexivity. Qed.


(** ** The result channel *)

(** C2 fails in the transcript runner.  When [model.transcribe] raises
    (here: a language code the model does not know), [sys.stdout] is
    still bound to the error stream, so the handler's error object is
    printed there: standard output stays empty, with exit status 1. *)
Theorem C2_transcribe_error_leaves_stdout_empty :
  payloads (stdout (final (run (main unsupported_language request_zz)))) = []
  /\ payloads (stderr (final (run (main unsupported_language request_zz))))
     = [Failure "Unsupported language: zz"
                (Some (LibraryError "Unsupported language: zz"))]
  /\ sys_stdout (final (run (main unsupported_language request_zz))) = Stderr
  /\ status (run (main unsupported_language request_zz)) = 1%Z
  /\ ~ terminal_ok (run (main unsupported_language request_zz)).
Proof.
  repeat split; try (vm_compute; reflexivity).
  unfold terminal_ok.
  replace (payloads (stdout (final (run (main unsupported_language request_zz)))))
    with (@nil (payload result)) by (vm_compute; reflexivity).
  tauto.
Qed.

(** ** The result channel of the transcript job *)



(** X17.  Input errors of the transcript job fail fast: a missing
    argument, an argument that is not JSON, and a request object whose
    [input] is absent or false each print one error object without
    traceback and exit with status 1, before any library is imported or
    called. *)
Theorem transcript_input_errors (e : env) :
  run (main e None)
  = Exited 1 (World [Json (Failure "Missing arguments" None)] [] Stdout [])
  /\ (forall why,
        run (main e (Some (Malformed why)))
        = Exited 1 (World [Json (Failure ("Invalid JSON arguments: " ++ why) None)]
                          [] Stdout []))
  /\ (forall fields,
        truthy (input_of fields) = false ->
        run (main e (Some (Parsed (JObject fields))))
        = Exited 1 (World [Json (Failure "Missing input path" None)] [] Stdout [])).
Proof.
  split; [reflexivity|]. split; [reflexivity|].
  intros fields Hin. unfold run, main, input_of in *. cbn.
  unfold get, get_default. cbn. rewrite Hin. reflexivity.
Qed.

(** ** Words and lines *)

Lemma segment_line_words (s : segment) :
  flat_map line_words (segment_line s) = segment_words s.
Proof.
  unfold segment_line. destruct (segment_words s) as [|w ws]; [reflexivity|].
  cbn. now rewrite app_nil_r.
Qed.

Lemma extract_words_data (segments : list segment) :
  map data (extract_words segments) = flat_map line_words (extract_lines segments).
Proof.
  unfold extract_words, extract_lines.
  induction segments as [|s segments IH]; [reflexivity|].
  cbn [flat_map]. rewrite map_app, flat_map_app, IH, segment_line_words.
  f_equal. rewrite map_map. cbn. apply map_id.
Qed.

Lemma extract_words_probability (segments : list segment) :
  Forall (fun w => probability w = 9 # 10) (extract_words segments).
Proof.
  unfold extract_words. apply List.Forall_forall. intros w Hin.
  apply in_flat_map in Hin as (s & _ & Hin).
  apply in_map_iff in Hin as (d & <- & _). reflexivity.
Qed.

Lemma sum_of_placeholders (ws : list timed_word) :
  Forall (fun w => probability w = 9 # 10) ws ->
  Np.sum (map probability ws) == (9 # 10) * inject_Z (Z.of_nat (length ws)).
Proof.
  induction 1 as [|w ws Hw _ IH].
  - reflexivity.
  - cbn [map Np.sum fold_right length]. fold (Np.sum (map probability ws)).
    rewrite IH, Hw, Nat2Z.inj_succ. unfold Z.succ. rewrite inject_Z_plus.
    change (inject_Z 1) with 1. ring.
Qed.

Lemma extract_lines_length (segments : list segment) :
  (length (extract_lines segments) <= length segments)%nat.
Proof.
  unfold extract_lines. induction segments as [|s segments IH]; [reflexivity|].
  cbn [flat_map length]. rewrite length_app.
  assert (length (segment_line s) <= 1)%nat
    by (unfold segment_line; destruct (segment_words s); cbn [length]; lia).
  lia.
Qed.

(** X18.  In every transcript result the flat word list is the words of
    the lines, in order, each with the placeholder probability 0.9; the
    reported [avgConfidence] is therefore 0.9 whenever there is a word and
    0 otherwise; and there are at most as many lines as the model returned
    segments (a segment without words gives no line). *)
Theorem transcript_words (e : env) (argv : option argument) (r : result) :
  In r (results_of (run (main e argv))) ->
  map data (words r) = flat_map line_words (lines r)
  /\ Forall (fun w => probability w = 9 # 10) (words r)
  /\ avgConfidence r = (match words r with [] => 0 # 1000 | _ => 900 # 1000 end)
  /\ exists t, transcribe_ e = Ok t
               /\ (length (lines r) <= length (default [] (result_segments t)))%nat.
Proof.
  intros Hin. unfold results_of in Hin.
  destruct (transcript_outcome e argv) as [Hs|[Hf|[[Hm _]|[Hc _]]]].
  - destruct Hs as [fields audio_len t _ _ Ht _ Hout].
    rewrite Hout in Hin. cbn in Hin. destruct Hin as [<-|[]].
    cbn [words lines avgConfidence].
    split; [apply extract_words_data|]. split; [apply extract_words_probability|].
    split; [|exists t; split; [exact Ht|apply extract_lines_length]].
    pose proof (extract_words_probability (default [] (result_segments t))) as Hall.
    destruct (extract_words (default [] (result_segments t))) as [|w ws] eqn:Hw;
      [reflexivity|].
    unfold avg_confidence_of.
    rewrite (round_comp _ (9 # 10)); [reflexivity|].
    rewrite (sum_of_placeholders _ Hall). field.
    intros Hz. unfold Qeq in Hz. cbn in Hz. lia.
  - destruct Hf as (err & tb & Hout & _). rewrite Hout in Hin. destruct Hin.
  - destruct Hm as (err & tb & Hout & _). rewrite Hout in Hin. destruct Hin.
  - destruct Hc as [Hout _]. rewrite Hout in Hin. destruct Hin.
Qed.

Lemma transcript_words_witness :
  exists r,
    In r (results_of (run (main two_lines request)))
    /\ length (words r) = 6%nat
    /\ avgConfidence r = 900 # 1000.
Proof.
  pose (r := hd (Result "" JNull [] [] JNull cpu 0 0)
                (results_of (run (main two_lines request)))).
  assert (Hin : In r (results_of (run (main two_lines request))))
    by (vm_compute; left; reflexivity).
  destruct (transcript_words _ _ _ Hin) as (_ & _ & Havg & _).
  exists r. split; [exact Hin|]. split; [vm_compute; reflexivity|].
  rewrite Havg. vm_compute. reflexivity.
Defined.

(** ** What the result reports *)

(** X19.  A successful transcript result reports the duration
    [len(audio) / 16000], the model name of the request
    ([large-v3-turbo] when it gives none), the language the model
    returned, or else the request's ([en] when it gives none), and the
    device chosen by the priority CUDA, then MPS, then CPU. *)
Theorem transcript_report (e : env) (argv : option argument) (r : result) :
  In r (results_of (run (main e argv))) ->
  exists fields audio_len t,
    argv = Some (Parsed (JObject fields))
    /\ load_audio_ e = Ok audio_len
    /\ transcribe_ e = Ok t
    /\ duration r = inject_Z (Z.of_nat audio_len) / 16000
    /\ model r = default (JStr "large-v3-turbo") (fields !! "model")
    /\ language r = match result_language t with
                    | Some l => JStr l
                    | None => default (JStr "en") (fields !! "language")
                    end
    /\ text r = strip (default "" (result_text t))
    /\ device r = (if cuda_is_available (host e) then cuda
                   else if mps_is_available (host e) then mps else cpu).
Proof.
  intros Hin. unfold results_of in Hin.
  destruct (transcript_outcome e argv) as [Hs|[Hf|[[Hm _]|[Hc _]]]].
  - destruct Hs as [fields audio_len t Hargv Haudio Ht _ Hout].
    rewrite Hout in Hin. cbn in Hin. destruct Hin as [<-|[]].
    exists fields, audio_len, t. repeat split; try assumption; try reflexivity.
    cbn [language]. destruct (result_language t); reflexivity.
  - destruct Hf as (err & tb & Hout & _). rewrite Hout in Hin. destruct Hin.
  - destruct Hm as (err & tb & Hout & _). rewrite Hout in Hin. destruct Hin.
  - destruct Hc as [Hout _]. rewrite Hout in Hin. destruct Hin.
Qed.

Lemma transcript_report_witness :
  exists r,
    In r (results_of (run (main two_lines request)))
    /\ device r = mps
    /\ language r = JStr "en".
Proof.
  pose (r := hd (Result "" JNull [] [] JNull cpu 0 0)
                (results_of (run (main two_lines request)))).
  assert (Hin : In r (results_of (run (main two_lines request))))
    by (vm_compute; left; reflexivity).
  destruct (transcript_report _ _ _ Hin)
    as (fields & n & t & _ & _ & Ht & _ & _ & Hlang & _ & Hdev).
  injection Ht as <-.
  exists r. split; [exact Hin|]. split; [exact Hdev | exact Hlang].
Defined.

(** ** The progress channel of the transcript job *)

Lemma percents_of_text {R} (said : list string) :
  omap (fun l : line R => match l with Progress percent _ => Some percent | _ => None end)
       (map Text said) = [].
Proof. induction said as [|l said IH]; [reflexivity|exact IH]. Qed.

Lemma payloads_of_text {R} (said : list string) :
  omap (fun l : line R => match l with Json p => Some p | _ => None end)
       (map Text said) = [].
Proof. induction said as [|l said IH]; [reflexivity|exact IH]. Qed.

Ltac reported :=
  cbn [stderr final status]; unfold Progress.percents, payloads;
  rewrite ?omap_app, ?percents_of_text, ?payloads_of_text; cbn;
  solve [ split; [reflexivity|];
          split; [first [left; reflexivity | right; eauto]|];
          first [reflexivity | intros; discriminate] ].

Lemma transcript_progress_test (e : env) (argv : option argument) :
  let x := run (main e argv) in
  Progress.climbs 0 (Progress.percents (stderr (final x))) = true
  /\ (payloads (stderr (final x)) = [] \/ exists ex, transcribe_ e = Exn ex)
  /\ (status x = 0%Z -> last (Progress.percents (stderr (final x))) = Some 100%Z).
Proof.
  destruct argv as [[why|[fields|v]]|]; cbn; [reported| |reported|reported].
  exec e fields ltac:(reported).
  all: reported.
Qed.

(** X20.  Whatever happens, the progress lines of the transcript job
    have percentages that never decrease and stay within 0..100; a JSON
    object appears on the error stream only when [model.transcribe] has
    raised; and a job that exits with status 0 has reported 100 last. *)
Theorem transcript_progress (e : env) (argv : option argument) :
  let x := run (main e argv) in
  StronglySorted Z.le (Progress.percents (stderr (final x)))
  /\ Forall (fun p => (0 <= p <= 100)%Z) (Progress.percents (stderr (final x)))
  /\ (payloads (stderr (final x)) = [] \/ exists ex, transcribe_ e = Exn ex)
  /\ (status x = 0%Z -> last (Progress.percents (stderr (final x))) = Some 100%Z).
Proof.
  intros x. destruct (transcript_progress_test e argv) as (Hc & Hjson & Hlast).
  destruct (climbs_sound _ 0%Z ltac:(lia) Hc) as [Hsorted Hall].
  repeat split; assumption.
Qed.

Lemma infix_cons {A} (x : A) (l m : list A) :
  (exists before after, l = before ++ m ++ after) ->
  exists before after, x :: l = before ++ m ++ after.
Proof. intros (b & a & ->). now exists (x :: b), a. Qed.

(** X21.  What the model prints while transcribing never reaches
    standard output: no run leaves a plain text line there, and a job that
    exits with status 0 has all of it, in order, on standard error. *)
Theorem transcript_verbose_output (e : env) (argv : option argument) :
  let x := run (main e argv) in
  Forall (fun l => match l with Text _ => False | _ => True end) (stdout (final x))
  /\ (status x = 0%Z ->
      exists before after,
        stderr (final x) = before ++ map Text (transcribe_verbose e) ++ after).
Proof.
  intros x. split.
  - subst x.
    destruct (transcript_outcome e argv) as [Hs|[Hf|[[Hm _]|[Hc _]]]].
    + destruct Hs as [? ? ? _ _ _ _ Hout]. rewrite Hout. repeat constructor.
    + destruct Hf as (err & tb & Hout & _). rewrite Hout. repeat constructor.
    + destruct Hm as (err & tb & Hout & _). rewrite Hout. constructor.
    + destruct Hc as [Hout _]. rewrite Hout. constructor.
  - subst x. destruct argv as [[why|[fields|v]]|]; cbn; try discriminate.
    exec e fields ltac:(intros; discriminate).
    all: try (intros; discriminate).
    all: intros _; rewrite <- !app_assoc; repeat apply infix_cons.
    all: eexists [], _; reflexivity.
Qed.

Lemma transcript_verbose_output_witness :
  In (Text "[00:00.000 --> 00:03.000]  la la la")
     (stderr (final (run (main two_lines request)))).
Proof.
  destruct (transcript_verbose_output two_lines request) as [_ H].
  destruct (H eq_refl) as (before & after & ->).
  apply in_or_app. right. left. reflexivity.
Defined.

(** ** What the job asks of the library *)

(** X22.  A transcript job that exits with status 0 has made exactly
    four library calls, in this order: the import, [load_model] with the
    request's model name on the detected device, [load_audio] on the
    request's input path, and [transcribe] with the request's language;
    the [initial_prompt] parameter of that call, when it is set, is the
    request's and is text. *)
Theorem transcript_library_calls (e : env) (argv : option argument) :
  status (run (main e argv)) = 0%Z ->
  exists fields prompt,
    argv = Some (Parsed (JObject fields))
    /\ calls (final (run (main e argv)))
       = [(import_whisper, true);
          (load_model (model_of fields) (detected (host e)), true);
          (load_audio (input_of fields), true);
          (transcribe (language_of fields) prompt, true)]
    /\ prompt_parameter prompt = prompt_parameter (prompt_of fields)
    /\ (forall p, prompt_parameter prompt = Some p -> exists s, p = JStr s).
Proof.
  destruct argv as [[why|[fields|v]]|]; cbn; try discriminate.
  intros Hstatus. exists fields, (prompt_of fields).
  split; [reflexivity|]. revert Hstatus.
  unfold model_of, detected, input_of, language_of, prompt_of, prompt_parameter.
  exec e fields ltac:(intros; discriminate).
  all: try (intros; discriminate).
  all: intros _; split; [reflexivity|]; split; [reflexivity|].
  all: intros p Hp; try discriminate.
  all: injection Hp as <-; unfold prompt_words in Hhints.
  all: destruct (default JNull (fields !! "initial_prompt")); try discriminate; eauto.
Qed.

Lemma transcript_library_calls_witness :
  exists fields prompt,
    request = Some (Parsed (JObject fields))
    /\ calls (final (run (main two_lines request)))
       = [(import_whisper, true);
          (load_model (model_of fields) mps, true);
          (load_audio (input_of fields), true);
          (transcribe (language_of fields) prompt, true)]
    /\ prompt_parameter prompt = prompt_parameter (prompt_of fields)
    /\ (forall p, prompt_parameter prompt = Some p -> exists s, p = JStr s).
Proof.
  assert (Hstatus : status (run (main two_lines request)) = 0%Z)
    by (vm_compute; reflexivity).
  exact (transcript_library_calls two_lines request Hstatus).
Defined.

(** X23.  Vocabulary hints must be text: a request whose
    [initial_prompt] is true but not a string fails with one error
    object, and [model.transcribe] is never called. *)
Theorem transcript_prompt_must_be_text (e : env) (fields : gmap string jval) :
  truthy (prompt_of fields) = true ->
  (forall s, prompt_of fields <> JStr s) ->
  let x := run (main e (Some (Parsed (JObject fields)))) in
  fails x
  /\ Forall (fun c => match fst c with transcribe _ _ => False | _ => True end)
            (calls (final x)).
Proof.
  intros Hp Hs. unfold prompt_of in *. cbn.
  assert (Hw : prompt_words (default JNull (fields !! "initial_prompt"))
               = Exn AttributeError).
  { unfold prompt_words. destruct (default JNull (fields !! "initial_prompt")) eqn:E;
      try reflexivity. now destruct (Hs s). }
  exec e fields ltac:(split; [eexists _, _; split; reflexivity|repeat constructor]).
  all: congruence.
Qed.

Lemma transcript_prompt_must_be_text_witness :
  fails (run (main two_lines
                (Some (Parsed (JObject {[ "input" := JStr "vocals.wav";
                                          "initial_prompt" := JInt 7 ]}))))).
Proof.
  refine (proj1 (transcript_prompt_must_be_text two_lines _ _ _)).
  - vm_compute. reflexivity.
  - intros s. vm_compute. discriminate.
Defined.

End whisper_facts.
